(** * SEO optimizer backend: scoring engine and task pipeline

    A shallow embedding of
      - [apps/seo_app/services/seo/seo_analyzer.py] and [constants.py]
        (the scoring engine),
      - [apps/seo_app/services/ai/seo_ai_service.py] (argument checks of the
        rewrite service),
      - [apps/seo_app/models.py] (the two record shapes),
      - [apps/seo_app/tasks/seo_tasks.py] (the three Celery tasks),
    followed by the properties the design document states about them.

    Conventions.
      - A Python [str] is a [string] whose characters are read as code
        points below 256; [str.lower], [str.split] and [str.strip] are
        embedded for that range.
      - A Python [float] is given by its exact value, a rational ([Q]).
        Every float operation rounds its exact result to the nearest
        binary64 value, ties to even ([Py.fl]); the exponent range of
        binary64 is not modelled, the quotients of two lengths being far
        inside it.  [round(x, 2)] rounds the exact value of [x] to
        hundredths, ties to even, and its result is given by that decimal.
      - The HTML parser, the readability formula, the page fetcher, the
        completion backend and the clock are collaborators: their answers
        are inputs of the model. *)

From Stdlib Require Import Ascii String QArith Qround Qpower Lqa.
From stdpp Require Import gmap strings list.

Local Open Scope string_scope.

(** ** Python text primitives *)

Module Py.

(** [str.isspace] on one code point below 256. *)
Definition is_space (c : ascii) : bool :=
  let n := N_of_ascii c in
  (((9 <=? n) && (n <=? 13)) || ((28 <=? n) && (n <=? 32))
   || (n =? 133) || (n =? 160))%N.

(** [str.lower] on one code point below 256. *)
Definition lower_char (c : ascii) : ascii :=
  let n := N_of_ascii c in
  if (((65 <=? n) && (n <=? 90))
      || ((192 <=? n) && (n <=? 222) && negb (n =? 215)))%N
  then ascii_of_N (n + 32) else c.

Fixpoint lower (s : string) : string :=
  match s with
  | EmptyString => EmptyString
  | String c s' => String (lower_char c) (lower s')
  end.

(** Truth value of a string: non-empty. *)
Definition truthy (s : string) : bool :=
  match s with EmptyString => false | _ => true end.

Fixpoint lstrip (s : string) : string :=
  match s with
  | EmptyString => EmptyString
  | String c s' => if is_space c then lstrip s' else s
  end.

Fixpoint rstrip (s : string) : string :=
  match s with
  | EmptyString => EmptyString
  | String c s' =>
      let r := rstrip s' in
      if is_space c && negb (truthy r) then EmptyString else String c r
  end.

(** [s.strip()] *)
Definition strip (s : string) : string := rstrip (lstrip s).

(** [s.split()]: maximal runs of non-space characters, in order.  [cur] is
    the token being read. *)
Fixpoint split_from (cur s : string) : list string :=
  match s with
  | EmptyString => if truthy cur then [cur] else []
  | String c s' =>
      if is_space c
      then (if truthy cur then cur :: split_from EmptyString s'
            else split_from EmptyString s')
      else split_from (cur ++ String c EmptyString) s'
  end.

Definition split (s : string) : list string := split_from EmptyString s.

(** [l.count(x)] *)
Definition count (x : string) (l : list string) : nat :=
  length (filter (fun w => w = x) l).

(** The integer nearest to [x], ties to even. *)
Definition round_half_even (x : Q) : Z :=
  let f := Qfloor x in
  let r := (x - inject_Z f)%Q in
  match (r ?= 1 # 2)%Q with
  | Lt => f
  | Gt => (f + 1)%Z
  | Eq => if Z.even f then f else (f + 1)%Z
  end.

(** [round(x, 2)] on the exact value of [x]: the nearest hundredth, ties to
    even. *)
Definition round2 (x : Q) : Q := round_half_even (x * 100) # 100.

(** The exponent of a positive rational: the [e] with
    [2 ^ e <= x < 2 ^ (e + 1)]. *)
Definition exponent (x : Q) : Z :=
  let e0 := (Z.log2 (Qnum x) - Z.log2 (Zpos (Qden x)))%Z in
  if Qle_bool (2 ^ e0) x then e0 else (e0 - 1)%Z.

(** The binary64 value nearest to a positive rational, ties to even: the
    53-bit significand is the rounded multiple of [2 ^ (e - 52)]. *)
Definition fl_pos (x : Q) : Q :=
  let e := exponent x in
  inject_Z (round_half_even (x * 2 ^ (52 - e))) * 2 ^ (e - 52).

(** The result of a float operation whose exact result is [x]. *)
Definition fl (x : Q) : Q :=
  match Qnum x with
  | Z0 => 0
  | Zpos _ => fl_pos x
  | Zneg _ => - fl_pos (- x)
  end.

(** [re.split(r"[.!?]+", s)]: the pieces between maximal runs of sentence
    punctuation, empty pieces included.  [in_run] tells that the previous
    character belonged to a separator. *)
Definition is_sentence_end (c : ascii) : bool :=
  let n := N_of_ascii c in ((n =? 46) || (n =? 33) || (n =? 63))%N.

Fixpoint re_split_from (in_run : bool) (cur s : string) : list string :=
  match s with
  | EmptyString => [cur]
  | String c s' =>
      if is_sentence_end c
      then (if in_run then re_split_from true EmptyString s'
            else cur :: re_split_from true EmptyString s')
      else re_split_from false (cur ++ String c EmptyString) s'
  end.

Definition re_split_sentences (s : string) : list string :=
  re_split_from false EmptyString s.

End Py.


(** ** Exceptions

    The exceptions the repository raises itself ([ValueError],
    [RuntimeError]) and those of its collaborators.  All of them are
    caught by [except Exception]. *)
Inductive exn : Type :=
| ValueError (msg : string)
| RuntimeError (msg : string)
| RequestException (msg : string)
| OtherError (msg : string).

(** ** constants.py

    The dash of "150-160" in one suggestion text is written in ASCII. *)

Inductive Severity := low | medium | high.

Record IssueDefinition := {
  severity : Severity;
  message : string;
  suggestion : string
}.

(** A Python [dict] with string keys, in insertion order. *)
Definition dict (V : Type) := list (string * V).

Fixpoint dict_get {V} (k : string) (d : dict V) : option V :=
  match d with
  | [] => None
  | (k', v) :: d' => if String.eqb k k' then Some v else dict_get k d'
  end.

(** [d[k] = v] *)
Fixpoint dict_set {V} (k : string) (v : V) (d : dict V) : dict V :=
  match d with
  | [] => [(k, v)]
  | (k', v') :: d' =>
      if String.eqb k k' then (k', v) :: d' else (k', v') :: dict_set k v d'
  end.

Definition ISSUE_DEFINITIONS : dict IssueDefinition :=
  [ ("no_h1_tag",
     {| severity := high;
        message := "Missing H1 tag.";
        suggestion := "Add an H1 tag containing the target keyword." |});
    ("missing_meta_description",
     {| severity := medium;
        message := "Meta description is missing.";
        suggestion := "Add a meta description of 150-160 characters containing the target keyword." |});
    ("keyword_density_low",
     {| severity := medium;
        message := "Keyword density is too low.";
        suggestion := "Add the target keyword naturally a few more times." |});
    ("keyword_density_high",
     {| severity := medium;
        message := "Keyword density is too high.";
        suggestion := "Reduce keyword usage to avoid keyword stuffing." |});
    ("missing_subheadings",
     {| severity := low;
        message := "No subheadings detected.";
        suggestion := "Break content into sections using H2/H3 tags." |});
    ("readability_poor",
     {| severity := medium;
        message := "Content readability is poor.";
        suggestion := "Shorten sentences and simplify language." |}) ].

(** [ISSUE_DEFINITIONS[k]] for a key of the table; the lookups in
    [generate_issues] only use keys that are present. *)
Definition issue_definition (k : string) : IssueDefinition :=
  default {| severity := low; message := ""; suggestion := "" |}
          (dict_get k ISSUE_DEFINITIONS).

(** ** Collaborating libraries of the scoring engine *)

(** BeautifulSoup with the [html.parser] backend, on a document given as
    text. *)
Class Soup := {
  (** [soup.get_text(separator=" ", strip=True)] *)
  get_text : string -> string;
  (** [[h.get_text(strip=True) for h in soup.find_all(tag)]] *)
  find_all_text : string -> string -> list string;
  (** [soup.find("meta", attrs={"name": "description"})]: [None] when no
      such tag, else the tag's [get("content")]. *)
  find_meta_description : string -> option (option string)
}.

(** [textstat.flesch_reading_ease] *)
Class Textstat := {
  flesch_reading_ease : string -> Q
}.

(** ** seo_analyzer.py *)

Module SEOAnalyzer.

Record t := {
  content : string;
  target_keyword : string;
  input_type : string
}.

Definition VALID_INPUT_TYPES : list string := ["html"; "content"].

(** [SEVERITY_PENALTIES] *)
Definition SEVERITY_PENALTIES (s : Severity) : Z :=
  match s with low => 3 | medium => 7 | high => 15 end.

(** [not s or not s.strip()] for an argument that may be [None]. *)
Definition blank (s : option string) : bool :=
  match s with
  | None => true
  | Some s => negb (Py.truthy s) || negb (Py.truthy (Py.strip s))
  end.

(** [__init__] *)
Definition init (content target_keyword input_type : option string)
  : exn + t :=
  if blank content then
    inl (ValueError "SEOAnalyzer requires non-empty content.")
  else if blank target_keyword then
    inl (ValueError "SEOAnalyzer requires a target keyword.")
  else if
    match input_type with
    | None => true
    | Some ty =>
        negb (Py.truthy ty)
        || negb (bool_decide (Py.strip (Py.lower ty) ∈ VALID_INPUT_TYPES))
    end
  then inl (ValueError "Invalid input_type. Must be one of ['html', 'content']")
  else
    inr {| content := default "" content;
           target_keyword := Py.strip (Py.lower (default "" target_keyword));
           input_type := Py.strip (Py.lower (default "" input_type)) |}.

Section Metrics.
Context `{Soup} `{Textstat}.

Definition _get_text_only (self : t) : string :=
  if String.eqb (input_type self) "html" then get_text (content self)
  else content self.

Definition count_words (self : t) : nat :=
  length (Py.split (_get_text_only self)).

Definition calculate_keyword_density (self : t) : Q :=
  let words := Py.split (Py.lower (_get_text_only self)) in
  match words with
  | [] => 0
  | _ =>
      let keyword_count := Py.count (target_keyword self) words in
      Py.round2
        (Py.fl
           (Py.fl (inject_Z (Z.of_nat keyword_count)
                   / inject_Z (Z.of_nat (length words)))
            * 100))
  end.

Definition average_sentence_length (self : t) : Q :=
  let text := _get_text_only self in
  let sentences :=
    List.filter Py.truthy (map Py.strip (Py.re_split_sentences text)) in
  match sentences with
  | [] => 0
  | _ =>
      Py.round2
        (Py.fl
           (inject_Z (Z.of_nat (list_sum (map (fun s => length (Py.split s))
                                              sentences)))
            / inject_Z (Z.of_nat (length sentences))))
  end.

Definition calculate_readability (self : t) : Q :=
  Py.round2 (flesch_reading_ease (_get_text_only self)).

Definition extract_headings (self : t) : dict (list string) :=
  if negb (String.eqb (input_type self) "html") then []
  else [ ("h1", find_all_text "h1" (content self));
         ("h2", find_all_text "h2" (content self));
         ("h3", find_all_text "h3" (content self)) ].

Definition check_meta_description (self : t) : option bool :=
  if negb (String.eqb (input_type self) "html") then None
  else Some match find_meta_description (content self) with
            | Some (Some c) => Py.truthy c
            | _ => false
            end.

(** [not headings.get(tag)] *)
Definition no_heading (tag : string) (headings : dict (list string)) : bool :=
  match dict_get tag headings with
  | Some (_ :: _) => false
  | _ => true
  end.

Definition generate_issues (self : t) : dict IssueDefinition :=
  let issues_found : dict IssueDefinition := [] in
  let density := calculate_keyword_density self in
  let issues_found :=
    if Qlt_le_dec density (1 # 2) then
      dict_set "keyword_density_low"
               (issue_definition "keyword_density_low") issues_found
    else if Qlt_le_dec 5 density then
      dict_set "keyword_density_high"
               (issue_definition "keyword_density_high") issues_found
    else issues_found in
  let issues_found :=
    if String.eqb (input_type self) "html" then
      let headings := extract_headings self in
      let issues_found :=
        if no_heading "h1" headings then
          dict_set "no_h1_tag" (issue_definition "no_h1_tag") issues_found
        else issues_found in
      let issues_found :=
        if negb (default false (check_meta_description self)) then
          dict_set "missing_meta_description"
                   (issue_definition "missing_meta_description") issues_found
        else issues_found in
      if no_heading "h2" headings && no_heading "h3" headings then
        dict_set "missing_subheadings"
                 (issue_definition "missing_subheadings") issues_found
      else issues_found
    else issues_found in
  if Qlt_le_dec (calculate_readability self) 50 then
    dict_set "readability_poor" (issue_definition "readability_poor")
             issues_found
  else issues_found.

(** The loop of [calculate_mock_seo_score] over a given issue map: the
    severity is looked up in [ISSUE_DEFINITIONS] by key, ["low"] when the
    key is unknown. *)
Definition score_loop {V} (issues : dict V) : Z :=
  fold_left
    (fun score '(issue_key, _) =>
       let severity :=
         match dict_get issue_key ISSUE_DEFINITIONS with
         | Some d => severity d
         | None => low
         end in
       (score - SEVERITY_PENALTIES severity)%Z)
    issues 100%Z.

Definition score_of_issues {V} (issues : dict V) : Z :=
  Z.max 0 (Z.min 100 (score_loop issues)).

Definition calculate_mock_seo_score (self : t) : Z :=
  score_of_issues (generate_issues self).

Record Analysis := {
  r_input_type : string;
  r_word_count : nat;
  r_keyword_density : Q;
  r_headings : dict (list string);
  r_has_meta_description : option bool;
  r_readability_score : Q;
  r_avg_sentence_length : Q;
  r_seo_score : Z;
  r_issues : dict IssueDefinition
}.

Definition analyze (self : t) : Analysis :=
  {| r_input_type := input_type self;
     r_word_count := count_words self;
     r_keyword_density := calculate_keyword_density self;
     r_headings :=
       if String.eqb (input_type self) "html" then extract_headings self
       else [];
     r_has_meta_description :=
       if String.eqb (input_type self) "html" then check_meta_description self
       else None;
     r_readability_score := calculate_readability self;
     r_avg_sentence_length := average_sentence_length self;
     r_seo_score := calculate_mock_seo_score self;
     r_issues := generate_issues self |}.

End Metrics.
End SEOAnalyzer.

(** ** seo_ai_service.py

    [_send_request] talks to the completion backend; its answer (the parsed
    and structure-checked JSON object, or the [RuntimeError] it raises) is
    an input of the model.  The two entry points check their arguments
    before building the prompt. *)

Record RewriteResult := {
  (** [results.get("optimized_content")]; JSON [null] is [None] *)
  res_optimized_content : option string;
  (** [results.get("improvements_done")], checked to be a list *)
  res_improvements_done : list string
}.

Module SEOOptimizerService.

(** [not s] for a string that may be [None]. *)
Definition falsy (s : option string) : bool :=
  match s with None => true | Some s => negb (Py.truthy s) end.

Definition post_analysis_optimize (_send_request : exn + RewriteResult)
    (content : option string) (keyword : string) : exn + RewriteResult :=
  if falsy content || negb (Py.truthy keyword) then
    inl (ValueError
           "Content and keyword are required for post-analysis optimization.")
  else _send_request.

Definition optimize (_send_request : exn + RewriteResult)
    (content : option string) (keyword tone : string) (target_length : Z)
  : exn + RewriteResult :=
  if falsy content || negb (Py.truthy keyword) || negb (Py.truthy tone)
     || (target_length =? 0)%Z then
    inl (ValueError "Content, keyword, tone, and target length are required.")
  else _send_request.

End SEOOptimizerService.

(** ** models.py *)

Inductive Status := processing | completed | failed.

Record BaseRecord := {
  status : Status;
  input_content : option string;
  target_keyword : string;
  optimized_imporvements : option (list string);
  optimized_content : option string;
  processing_time : option Z;
  created_at : Z;
  completed_at : option Z
}.

Record AnalysisRecord := {
  analysis_base :> BaseRecord;
  input_url : option string;
  seo_score : option Q;
  word_count : option Z;
  keyword_density : option Q;
  avg_sentence_length : option Q;
  readability_score : option Q;
  issues : option (dict IssueDefinition)
}.

Record OptimizationRecord := {
  optimization_base :> BaseRecord;
  target_length : Z;
  tone : string;
  optimized_keyword_denisty : option Q
}.

(** Attribute assignments on a loaded record. *)
Definition set_terminal (st : Status) (now : Z) (b : BaseRecord) : BaseRecord :=
  {| status := st;
     input_content := input_content b;
     target_keyword := target_keyword b;
     optimized_imporvements := optimized_imporvements b;
     optimized_content := optimized_content b;
     processing_time := processing_time b;
     created_at := created_at b;
     completed_at := Some now |}.

Definition set_optimized (results : RewriteResult) (b : BaseRecord)
  : BaseRecord :=
  {| status := status b;
     input_content := input_content b;
     target_keyword := target_keyword b;
     optimized_imporvements := Some (res_improvements_done results);
     optimized_content := res_optimized_content results;
     processing_time := processing_time b;
     created_at := created_at b;
     completed_at := completed_at b |}.

Definition set_processing_time (ms : Z) (b : BaseRecord) : BaseRecord :=
  {| status := status b;
     input_content := input_content b;
     target_keyword := target_keyword b;
     optimized_imporvements := optimized_imporvements b;
     optimized_content := optimized_content b;
     processing_time := Some ms;
     created_at := created_at b;
     completed_at := completed_at b |}.

Definition with_analysis_base (b : BaseRecord) (r : AnalysisRecord)
  : AnalysisRecord :=
  {| analysis_base := b;
     input_url := input_url r;
     seo_score := seo_score r;
     word_count := word_count r;
     keyword_density := keyword_density r;
     avg_sentence_length := avg_sentence_length r;
     readability_score := readability_score r;
     issues := issues r |}.

Definition with_optimization_base (b : BaseRecord) (r : OptimizationRecord)
  : OptimizationRecord :=
  {| optimization_base := b;
     target_length := target_length r;
     tone := tone r;
     optimized_keyword_denisty := optimized_keyword_denisty r |}.

(** ** The task transport (Celery)

    A task invocation travels as a message: which task, the record
    identifier it was called with, [request.retries], and the delay it
    was sent with. *)

Inductive TaskName := AnalyzeContent | OptimizeAfterAnalysis | OptimizeContent.

Record Message := {
  msg_task : TaskName;
  msg_record_id : N;
  msg_retries : nat;
  msg_countdown : Z
}.

(** The record store (one table per model, keyed by [id]) and the broker's
    queue. *)
Record World := {
  analysis_records : gmap N AnalysisRecord;
  optimization_records : gmap N OptimizationRecord;
  queue : list Message
}.

Definition save_analysis (record_id : N) (r : AnalysisRecord) (w : World)
  : World :=
  {| analysis_records := <[record_id := r]> (analysis_records w);
     optimization_records := optimization_records w;
     queue := queue w |}.

Definition save_optimization (record_id : N) (r : OptimizationRecord)
    (w : World) : World :=
  {| analysis_records := analysis_records w;
     optimization_records := <[record_id := r]> (optimization_records w);
     queue := queue w |}.

Definition enqueue (m : Message) (w : World) : World :=
  {| analysis_records := analysis_records w;
     optimization_records := optimization_records w;
     queue := (queue w ++ [m])%list |}.

(** [task.delay(record_id)]; the broker accepts every message, so the call
    does not raise. *)
Definition delay (task : TaskName) (record_id : N) (w : World) : World :=
  enqueue {| msg_task := task; msg_record_id := record_id;
             msg_retries := 0; msg_countdown := 0 |} w.

(** What a task invocation raises, when it raises. *)
Inductive Raised :=
| Retry (when : Z)
| MaxRetriesExceededError
| Exc (e : exn).

Inductive Outcome := Returned | Raises (r : Raised).

(** [Task.retry(exc=..., countdown=...)] of Celery, for a task run by a
    worker; the library is not part of the repository and is modelled from
    its API documentation.  With retries left ([request.retries + 1] not
    above [max_retries]) the task is sent again with that retry count and
    the given countdown, and [Retry] is raised.  With none left the library
    raises the exception passed as [exc] ("custom exception to report when
    the max retry limit has been exceeded"), and [MaxRetriesExceededError]
    only by default, when no [exc] was passed.  Sending a message does not
    fail. *)
Definition retry (task : TaskName) (max_retries : nat) (record_id : N)
    (request_retries : nat) (exc : option exn) (countdown : Z) (w : World)
  : World * Raised :=
  let retries := S request_retries in
  if (max_retries <? retries)%nat then
    (w, match exc with Some e => Exc e | None => MaxRetriesExceededError end)
  else
    (enqueue {| msg_task := task; msg_record_id := record_id;
                msg_retries := retries; msg_countdown := countdown |} w,
     Retry countdown).

(** ** seo_tasks.py *)

(** What one invocation gets from outside: the page fetcher
    ([extract_html]), the completion backend's answer, the clock
    ([timezone.now()]) and the measured duration
    ([int((time.time() - start_time) * 1000)]). *)
Record Attempt := {
  extract_html : string -> exn + string;
  _send_request : exn + RewriteResult;
  now : Z;
  elapsed_ms : Z
}.

Definition max_retries : nat := 3.

Section Tasks.
Context `{Soup} `{Textstat}.

(** The [try] body of [analyze_content_task] up to the end of the
    transaction: the record as saved, or the exception. *)
Definition analyze_content_body (env : Attempt) (record : AnalysisRecord)
  : exn + AnalysisRecord :=
  let resolved : string * (exn + option string) :=
    match input_url record with
    | Some url =>
        if Py.truthy url then
          ("html", match extract_html env url with
                   | inl e => inl e
                   | inr page => inr (Some page)
                   end)
        else ("content", inr (input_content record))
    | None => ("content", inr (input_content record))
    end in
  let input_type := resolved.1 in
  match resolved.2 with
  | inl e => inl e
  | inr content =>
      match SEOAnalyzer.init content (Some (target_keyword record))
                             (Some input_type) with
      | inl e => inl e
      | inr analyzer =>
          let analysis_data := SEOAnalyzer.analyze analyzer in
          inr {| analysis_base :=
                   {| status := processing;
                      input_content := content;
                      target_keyword := target_keyword record;
                      optimized_imporvements := optimized_imporvements record;
                      optimized_content := optimized_content record;
                      processing_time := Some (elapsed_ms env);
                      created_at := created_at record;
                      completed_at := completed_at record |};
                 input_url := input_url record;
                 seo_score :=
                   Some (inject_Z (SEOAnalyzer.r_seo_score analysis_data));
                 word_count :=
                   Some (Z.of_nat (SEOAnalyzer.r_word_count analysis_data));
                 keyword_density :=
                   Some (SEOAnalyzer.r_keyword_density analysis_data);
                 avg_sentence_length :=
                   Some (SEOAnalyzer.r_avg_sentence_length analysis_data);
                 readability_score :=
                   Some (SEOAnalyzer.r_readability_score analysis_data);
                 issues := Some (SEOAnalyzer.r_issues analysis_data) |}
      end
  end.

Definition analyze_content_task (env : Attempt) (request_retries : nat)
    (record_id : N) (w : World) : World * Outcome :=
  match (analysis_records w !! record_id : option AnalysisRecord) with
  | None => (w, Returned)
  | Some record =>
      match analyze_content_body env record with
      | inr record' =>
          (delay OptimizeAfterAnalysis record_id
                 (save_analysis record_id record' w),
           Returned)
      | inl e =>
          match retry AnalyzeContent max_retries record_id request_retries
                      (Some e) (2 ^ Z.of_nat request_retries) w with
          | (w', MaxRetriesExceededError) =>
              (save_analysis record_id
                 (with_analysis_base (set_terminal failed (now env) record)
                                     record) w',
               Returned)
          | (w', r) => (w', Raises r)
          end
      end
  end.

Definition optimize_after_analysis_task (env : Attempt)
    (request_retries : nat) (record_id : N) (w : World) : World * Outcome :=
  match (analysis_records w !! record_id : option AnalysisRecord) with
  | None => (w, Returned)
  | Some record =>
      match SEOOptimizerService.post_analysis_optimize
              (_send_request env) (input_content record)
              (target_keyword record) with
      | inr results =>
          (save_analysis record_id
             (with_analysis_base
                (set_terminal completed (now env)
                   (set_optimized results record))
                record) w,
           Returned)
      | inl e =>
          match retry OptimizeAfterAnalysis max_retries record_id
                      request_retries (Some e)
                      (2 ^ Z.of_nat request_retries) w with
          | (w', MaxRetriesExceededError) =>
              (save_analysis record_id
                 (with_analysis_base (set_terminal failed (now env) record)
                                     record) w',
               Returned)
          | (w', r) => (w', Raises r)
          end
      end
  end.

(** The [try] body of [optimize_content_task]: the record as saved, or the
    exception together with the record as it stands in memory when the
    exception is raised. *)
Definition optimize_content_body (env : Attempt) (record : OptimizationRecord)
  : (exn * OptimizationRecord) + OptimizationRecord :=
  match SEOOptimizerService.optimize
          (_send_request env) (input_content record)
          (target_keyword record) (tone record) (target_length record) with
  | inl e => inl (e, record)
  | inr results =>
      let record :=
        with_optimization_base (set_optimized results record) record in
      match SEOAnalyzer.init (optimized_content record)
                             (Some (target_keyword record))
                             (Some "content") with
      | inl e => inl (e, record)
      | inr analyzer =>
          inr {| optimization_base :=
                   set_terminal completed (now env)
                     (set_processing_time (elapsed_ms env) record);
                 target_length := target_length record;
                 tone := tone record;
                 optimized_keyword_denisty :=
                   Some (SEOAnalyzer.calculate_keyword_density analyzer) |}
      end
  end.

Definition optimize_content_task (env : Attempt) (request_retries : nat)
    (record_id : N) (w : World) : World * Outcome :=
  match (optimization_records w !! record_id : option OptimizationRecord) with
  | None => (w, Returned)
  | Some record =>
      match optimize_content_body env record with
      | inr record' => (save_optimization record_id record' w, Returned)
      | inl (e, record) =>
          match retry OptimizeContent max_retries record_id request_retries
                      (Some e) (2 ^ Z.of_nat request_retries) w with
          | (w', MaxRetriesExceededError) =>
              (save_optimization record_id
                 (with_optimization_base
                    (set_terminal failed (now env) record) record) w',
               Returned)
          | (w', r) => (w', Raises r)
          end
      end
  end.

(** A worker running one message. *)
Definition run (env : Attempt) (m : Message) (w : World) : World * Outcome :=
  match msg_task m with
  | AnalyzeContent =>
      analyze_content_task env (msg_retries m) (msg_record_id m) w
  | OptimizeAfterAnalysis =>
      optimize_after_analysis_task env (msg_retries m) (msg_record_id m) w
  | OptimizeContent =>
      optimize_content_task env (msg_retries m) (msg_record_id m) w
  end.

End Tasks.

(** * Reference definitions

    Notions used to state the properties: what the design document's
    formulas say, read literally. *)

(** Does the text hold a whitespace character? *)
Fixpoint has_space (s : string) : bool :=
  match s with
  | EmptyString => false
  | String c s' => Py.is_space c || has_space s'
  end.

(** The density as the design document words it: hundred times the number
    of tokens equal to the keyword over the number of tokens, rounded to
    two decimals; zero for a text without tokens.  The formula is taken as
    arithmetic, on the exact quotient.  [text] is the derived text and
    [keyword] the keyword as the engine compares it. *)
Definition exactTokenMatches (keyword : string) (tokens : list string) : nat :=
  count_occ string_dec tokens keyword.

Definition spec_keywordDensity (text keyword : string) : Q :=
  let tokens := Py.split (Py.lower text) in
  let totalTokens := length tokens in
  if Nat.eqb totalTokens 0 then 0
  else Py.round2 (100 * inject_Z (Z.of_nat (exactTokenMatches keyword tokens))
                  / inject_Z (Z.of_nat totalTokens)).

(** The composite score as the design document words it. *)
Definition spec_penalty (s : Severity) : Z :=
  match s with low => 3 | medium => 7 | high => 15 end.

Definition clamp (x lo hi : Z) : Z := Z.max lo (Z.min hi x).

Definition list_sum_Z (l : list Z) : Z := fold_right Z.add 0%Z l.

Definition spec_calculateScore (issues : dict IssueDefinition) : Z :=
  clamp (100 - list_sum_Z (map (fun kv => spec_penalty (severity kv.2)) issues))
        0 100.

(** The unit roundoff of binary64. *)
Definition unit_roundoff : Q := 1 # 9007199254740992.

(** The density as the code computes it: the quotient of the two counts,
    times a hundred, each rounded to binary64, then rounded to two
    decimals. *)
Definition float_keywordDensity (text keyword : string) : Q :=
  let tokens := Py.split (Py.lower text) in
  let totalTokens := length tokens in
  if Nat.eqb totalTokens 0 then 0
  else Py.round2
         (Py.fl (Py.fl (inject_Z (Z.of_nat (exactTokenMatches keyword tokens))
                        / inject_Z (Z.of_nat totalTokens))
                 * 100)).

(** ** Delivery of task messages

    Workers take messages from the queue in any order and run them.  The
    design document assumes at-least-once delivery: besides the normal
    hand-over, in which the message leaves the queue, the transport may hand
    a queued message to a worker while keeping it queued. *)

Inductive Table := AnalysisTable | OptimizationTable.

#[global] Instance Table_eq_dec : EqDecision Table.
Proof. solve_decision. Defined.

Definition table_of (t : TaskName) : Table :=
  match t with
  | OptimizeContent => OptimizationTable
  | AnalyzeContent | OptimizeAfterAnalysis => AnalysisTable
  end.

(** The record a message is about. *)
Definition target (m : Message) : Table * N :=
  (table_of (msg_task m), msg_record_id m).

Definition record_at (w : World) (tgt : Table * N) : option BaseRecord :=
  match tgt.1 with
  | AnalysisTable => analysis_base <$> (analysis_records w !! tgt.2)
  | OptimizationTable => optimization_base <$> (optimization_records w !! tgt.2)
  end.

Definition with_queue (q : list Message) (w : World) : World :=
  {| analysis_records := analysis_records w;
     optimization_records := optimization_records w;
     queue := q |}.

Section Delivery.
Context `{Soup} `{Textstat}.

Inductive deliver_once : World -> World -> Prop :=
| deliver_once_run env m (l1 l2 : list Message) w :
    queue w = (l1 ++ m :: l2)%list ->
    deliver_once w (run env m (with_queue (l1 ++ l2)%list w)).1.


(** One worker emptying the queue in order, every invocation seeing the
    same answers from outside; the outcomes are listed in order. *)
Fixpoint work (env : Attempt) (fuel : nat) (w : World) : World * list Outcome :=
  match fuel with
  | O => (w, [])
  | S fuel =>
      match queue w with
      | [] => (w, [])
      | m :: q =>
          let '(w', out) := run env m (with_queue q w) in
          let '(w'', outs) := work env fuel w' in
          (w'', out :: outs)
      end
  end.

End Delivery.

(** A store as the API leaves it: every record is [processing] without
    completion time, and no two queued messages are about the same
    record. *)
Definition created (w : World) : Prop :=
  (forall tgt b, record_at w tgt = Some b ->
                 status b = processing /\ completed_at b = None)
  /\ NoDup (target <$> queue w).



(** ** The stated properties, as propositions *)




(** [t'] is not earlier than [t]. *)
Definition not_backward (t t' : option Z) : Prop :=
  match t, t' with
  | Some t, Some t' => (t <= t')%Z
  | Some _, None => False
  | None, _ => True
  end.

(** The input stage A hands to the scoring engine (lines 29 to 34 of the
    task): the fetched page, as "html", when the record has a non-empty URL
    and the fetch answers; the stored content, as "content", when the
    record has no URL or an empty one. *)
Definition resolved_input (env : Attempt) (r : AnalysisRecord)
    (content : option string) (ty : string) : Prop :=
  (exists url page, input_url r = Some url /\ Py.truthy url = true
                    /\ extract_html env url = inr page
                    /\ content = Some page /\ ty = "html")
  \/ ((input_url r = None \/ input_url r = Some "")
      /\ content = input_content r /\ ty = "content").

Section StatedProperties.
Context `{Soup} `{Textstat}.

(** A second run of stage B on a completed record, with a clock that did
    not go back, keeps [optimized_content] and does not move
    [completed_at] backward. *)
Definition stage_b_idempotent : Prop :=
  forall env n id w (r r' : AnalysisRecord) w' out,
    analysis_records w !! id = Some r ->
    status r = completed ->
    not_backward (completed_at r) (Some (now env)) ->
    optimize_after_analysis_task env n id w = (w', out) ->
    analysis_records w' !! id = Some r' ->
    optimized_content r' = optimized_content r
    /\ not_backward (completed_at r) (completed_at r').

(** The keyword density of an analyzer is the exact formula: a hundred
    times the matching tokens over all tokens, rounded to two decimals. *)
Definition keyword_density_exact : Prop :=
  forall content kw ty a,
    SEOAnalyzer.init (Some content) (Some kw) (Some ty) = inr a ->
    (SEOAnalyzer.calculate_keyword_density a
     == spec_keywordDensity (SEOAnalyzer._get_text_only a)
                            (Py.strip (Py.lower kw)))%Q.

(** An exception of the scoring engine's argument checks. *)
Definition validation_error (e : exn) : Prop :=
  exists content keyword input_type,
    SEOAnalyzer.init content keyword input_type = inl e.

(** A validation failure in stage A is not retried: nothing is sent again
    and the record is marked [failed] at once. *)
Definition validation_failure_permanent : Prop :=
  forall env n id w (r : AnalysisRecord) e w' out,
    analysis_records w !! id = Some r ->
    analyze_content_body env r = inl e ->
    validation_error e ->
    analyze_content_task env n id w = (w', out) ->
    queue w' = queue w
    /\ (forall c, out <> Raises (Retry c))
    /\ exists r' : AnalysisRecord,
         analysis_records w' !! id = Some r' /\ status r' = failed.

End StatedProperties.

(** ** Fixtures

    Stand-ins for the collaborators and small stores for the examples. *)
Module Fixtures.

(** A parser for which every document is plain text without tags. *)
Definition plain_soup : Soup :=
  {| get_text := fun doc => doc;
     find_all_text := fun _ _ => [];
     find_meta_description := fun _ => None |}.

(** A readability formula with a fixed answer. *)
Definition textstat_const (score : Q) : Textstat :=
  {| flesch_reading_ease := fun _ => score |}.

Definition new_base (content : option string) (keyword : string) : BaseRecord :=
  {| status := processing;
     input_content := content;
     target_keyword := keyword;
     optimized_imporvements := None;
     optimized_content := None;
     processing_time := None;
     created_at := 0;
     completed_at := None |}.

(** [AnalysisRecord.objects.create(input_url=..., input_content=...,
    target_keyword=...)] *)
Definition new_analysis (url content : option string) (keyword : string)
  : AnalysisRecord :=
  {| analysis_base := new_base content keyword;
     input_url := url;
     seo_score := None;
     word_count := None;
     keyword_density := None;
     avg_sentence_length := None;
     readability_score := None;
     issues := None |}.

Definition new_optimization (content keyword tone : string) (length : Z)
  : OptimizationRecord :=
  {| optimization_base := new_base (Some content) keyword;
     target_length := length;
     tone := tone;
     optimized_keyword_denisty := None |}.

Definition first_message (task : TaskName) (id : N) : Message :=
  {| msg_task := task; msg_record_id := id;
     msg_retries := 0; msg_countdown := 0 |}.

(** One analysis record with pasted content, its first task queued. *)
Definition analysis_world : World :=
  {| analysis_records :=
       {[ 1%N := new_analysis None (Some "test keyword test") "test" ]};
     optimization_records := ∅;
     queue := [first_message AnalyzeContent 1] |}.

(** One analysis record with a URL, its first task queued. *)
Definition url_world : World :=
  {| analysis_records :=
       {[ 1%N := new_analysis (Some "https://example.com") None "test" ]};
     optimization_records := ∅;
     queue := [first_message AnalyzeContent 1] |}.

(** One optimization record, its task queued. *)
Definition optimization_world : World :=
  {| analysis_records := ∅;
     optimization_records :=
       {[ 7%N := new_optimization "Original content" "test keyword"
                                  "professional" 500 ]};
     queue := [first_message OptimizeContent 7] |}.

(** The backend answers with content [text]. *)
Definition answering (text : string) (time : Z) : Attempt :=
  {| extract_html := fun _ => inr "";
     _send_request :=
       inr {| res_optimized_content := Some text;
              res_improvements_done := ["A"; "B"] |};
     now := time;
     elapsed_ms := 5 |}.

(** The backend is down. *)
Definition failing (time : Z) : Attempt :=
  {| extract_html := fun _ => inl (RequestException "timeout");
     _send_request := inl (RuntimeError "OpenAI API error: unavailable");
     now := time;
     elapsed_ms := 5 |}.

(** The analysis record of [analysis_world] after both stages succeeded at
    time 10 with the backend answering "X". *)
Definition completed_analysis : AnalysisRecord :=
  {| analysis_base :=
       {| status := completed;
          input_content := Some "test keyword test";
          target_keyword := "test";
          optimized_imporvements := Some ["A"; "B"];
          optimized_content := Some "X";
          processing_time := Some 5%Z;
          created_at := 0;
          completed_at := Some 10%Z |};
     input_url := None;
     seo_score := Some (inject_Z 93);
     word_count := Some 3%Z;
     keyword_density := Some (6667 # 100);
     avg_sentence_length := Some (300 # 100);
     readability_score := Some (6000 # 100);
     issues :=
       Some [("keyword_density_high", issue_definition "keyword_density_high")] |}.

Definition completed_world : World :=
  {| analysis_records := {[ 1%N := completed_analysis ]};
     optimization_records := ∅;
     queue := [] |}.

End Fixtures.

(** * Further code of the repository

    The page fetcher ([services/common/extract_html.py]), the custom
    validators of the create serializers ([api/serializers]) and the
    creation endpoints ([api/views]). *)

(** [sep.join(l)] *)
Fixpoint str_join (sep : string) (l : list string) : string :=
  match l with
  | [] => EmptyString
  | [w] => w
  | w :: l' => w ++ sep ++ str_join sep l'
  end.

(** Is every character of the text whitespace? *)
Fixpoint all_space (s : string) : bool :=
  match s with
  | EmptyString => true
  | String c s' => Py.is_space c && all_space s'
  end.

(** A text that does not start with whitespace. *)
Definition starts_clean (s : string) : bool :=
  match s with
  | EmptyString => true
  | String c _ => negb (Py.is_space c)
  end.

(** [x < y] on rationals, as a test. *)
Definition Qltb (x y : Q) : bool :=
  match (x ?= y)%Q with Lt => true | _ => false end.

(** The rule set of [generate_issues] on the values it tests. *)
Definition issue_keys (low_density high_density html no_h1 no_meta
                       no_subheadings poor : bool) : list string :=
  (if low_density then ["keyword_density_low"]
   else if high_density then ["keyword_density_high"] else [])
  ++ (if html then
        (if no_h1 then ["no_h1_tag"] else [])
        ++ (if no_meta then ["missing_meta_description"] else [])
        ++ (if no_subheadings then ["missing_subheadings"] else [])
      else [])
  ++ (if poor then ["readability_poor"] else []).

(** ** extract_html.py

    [requests] and the tag handling of BeautifulSoup are collaborators:
    [http_get] answers [requests.get(url, timeout=10)] followed by
    [raise_for_status()] with the response text or the exception;
    [clean_markup] is the removal of unwanted tags, the whitelist pass and
    [str(soup.body) if soup.body else str(soup)]; [visible_text] is the
    removal of unwanted tags and [get_text(separator=" ", strip=True)]. *)
Module ExtractHtml.

Record Web := {
  http_get : string -> exn + string;
  clean_markup : string -> string;
  visible_text : string -> string
}.

Definition extract_html (web : Web) (url : string) : exn + string :=
  match http_get web url with
  | inl e => inl e
  | inr text =>
      let cleaned_html := clean_markup web text in
      inr (str_join " " (Py.split cleaned_html))
  end.

Definition extract_text_from_html (web : Web) (url : string) : exn + string :=
  match http_get web url with
  | inl e => inl e
  | inr text =>
      let text := visible_text web text in
      inr (str_join " " (Py.split text))
  end.

End ExtractHtml.

(** ** api/serializers

    The custom validators, as functions of the value the framework hands
    them; the framework's own field checks are not part of the model. *)
Module Serializers.

Record AnalysisCreateData := {
  url : option string;
  content : option string;
  target_keyword : string
}.

(** [AnalysisRecordCreateSerializer.validate] *)
Definition validate (data : AnalysisCreateData)
  : string + AnalysisCreateData :=
  let has_url := negb (SEOOptimizerService.falsy (url data)) in
  let has_content := negb (SEOOptimizerService.falsy (content data)) in
  if negb has_url && negb has_content then
    inl "Either 'url' or 'content' must be provided."
  else if has_url && has_content then
    inl "Provide either 'url' or 'content', not both."
  else inr data.

Definition accepted_tones : list string :=
  [ "professional"; "casual"; "persuasive"; "informative"; "authoritative";
    "friendly"; "formal"; "conversational" ].

(** [OptimizationRecordCreateSerializer.validate_tone] *)
Definition validate_tone (value : string) : string + string :=
  if negb (bool_decide (Py.lower value ∈ accepted_tones)) then
    inl "Tone must be one of: professional, casual, persuasive, informative, authoritative, friendly, formal, conversational"
  else inr (Py.lower value).

(** [OptimizationRecordCreateSerializer.validate_content] *)
Definition validate_content (value : string) : string + string :=
  if (String.length (Py.strip value) <? 10)%nat then
    inl "Content must be at least 10 characters long."
  else
    let word_count := length (Py.split value) in
    if (word_count <? 5)%nat then
      inl "Content must contain at least 5 words."
    else inr (Py.strip value).

Record OptimizationCreateData := {
  o_content : string;
  o_target_keyword : string;
  o_target_length : Z;
  o_tone : string
}.

End Serializers.

(** ** api/views

    [post] of the two list-create views.  The serializer's verdict
    ([is_valid()] with its errors or its validated data), the identifier
    drawn by [uuid.uuid4] and the clock are inputs.  Creating the record
    and sending the message do not fail. *)
Module Views.

Inductive Response :=
| HTTP_201_CREATED (id : N) (st : Status) (created : Z)
| HTTP_400_BAD_REQUEST (errors : string).

(** The model defaults of a record that is created with the given
    fields. *)
Definition create_base (input : option string) (keyword : string) (now : Z)
  : BaseRecord :=
  {| status := processing;
     input_content := input;
     target_keyword := keyword;
     optimized_imporvements := None;
     optimized_content := None;
     processing_time := None;
     created_at := now;
     completed_at := None |}.


(** [OptimizationRecordListCreateAPIView.post] *)
Definition optimization_post
    (validation : string + Serializers.OptimizationCreateData)
    (new_id : N) (now : Z) (w : World) : World * Response :=
  match validation with
  | inl errors => (w, HTTP_400_BAD_REQUEST errors)
  | inr validated_data =>
      let record :=
        {| optimization_base :=
             create_base (Some (Serializers.o_content validated_data))
               (Serializers.o_target_keyword validated_data) now;
           target_length := Serializers.o_target_length validated_data;
           tone := Serializers.o_tone validated_data;
           optimized_keyword_denisty := None |} in
      (delay OptimizeContent new_id (save_optimization new_id record w),
       HTTP_201_CREATED new_id (status record) (created_at record))
  end.

End Views.

(** ** The whole system

    Requests create records and workers run messages, each message once.
    A created record gets an identifier that is not in use: absent from
    its table and not named by a queued message. *)
Section System.
Context `{Soup} `{Textstat}.


End System.

(** The work a queued message can still cause: the invocations left to
    its task, and for stage A the invocations of stage B after it. *)
Definition message_budget (m : Message) : nat :=
  (match msg_task m with
   | AnalyzeContent => 5
   | OptimizeAfterAnalysis | OptimizeContent => 1
   end + (max_retries - msg_retries m))%nat.

Definition queue_budget (w : World) : nat :=
  list_sum (message_budget <$> queue w).

(** The messages an invocation of [m] may send: none, itself with one
    more retry and the delay [2 ^ retries], or, for stage A, the first
    message of stage B. *)
Definition may_send (m : Message) (sent : list Message) : Prop :=
  sent = []
  \/ ((msg_retries m < max_retries)%nat
      /\ sent = [ {| msg_task := msg_task m;
                     msg_record_id := msg_record_id m;
                     msg_retries := S (msg_retries m);
                     msg_countdown := 2 ^ Z.of_nat (msg_retries m) |} ])
  \/ (msg_task m = AnalyzeContent
      /\ sent = [ {| msg_task := OptimizeAfterAnalysis;
                     msg_record_id := msg_record_id m;
                     msg_retries := 0; msg_countdown := 0 |} ]).

(** Further stand-ins for the examples. *)
Module MoreFixtures.

(** A site whose one page is a paragraph with irregular spacing, served
    without markup handling. *)
Definition one_page : ExtractHtml.Web :=
  {| ExtractHtml.http_get := fun _ => inr "  Hello   wide
 world ";
     ExtractHtml.clean_markup := fun text => text;
     ExtractHtml.visible_text := fun text => text |}.

Definition optimization_request : Serializers.OptimizationCreateData :=
  {| Serializers.o_content := "Five words are enough here";
     Serializers.o_target_keyword := "words";
     Serializers.o_target_length := 500;
     Serializers.o_tone := "formal" |}.

Definition analysis_request : Serializers.AnalysisCreateData :=
  {| Serializers.url := None;
     Serializers.content := Some "One. Two words.";
     Serializers.target_keyword := "words" |}.

Definition sample_analyzer : SEOAnalyzer.t :=
  {| SEOAnalyzer.content := "One. Two words.";
     SEOAnalyzer.target_keyword := "words";
     SEOAnalyzer.input_type := "content" |}.

(** A text of 160 tokens, 23 of them the keyword "test". *)
Definition dense_content : string :=
  str_join " " (repeat "test" 23 ++ repeat "word" 137)%list.

(** A text of 40 sentences and 43 words. *)
Definition short_sentences : string :=
  str_join " " (repeat "Go." 37 ++ repeat "Go on." 3)%list.

End MoreFixtures.
(** * Properties *)

(** ** Text primitives *)

Lemma has_space_app a b : has_space (a ++ b) = has_space a || has_space b.
Proof.
  induction a as [|c a IH]; simpl; [reflexivity|].
  rewrite IH. apply orb_assoc.
Qed.

Lemma truthy_app_char cur c : Py.truthy (cur ++ String c EmptyString) = true.
Proof. destruct cur; reflexivity. Qed.

(** Tokens of [split] contain no whitespace. *)
Lemma split_from_no_space s : forall cur,
  has_space cur = false ->
  Forall (fun w => has_space w = false) (Py.split_from cur s).
Proof.
  induction s as [|c s IH]; intros cur Hcur; simpl.
  - destruct (Py.truthy cur); auto.
  - destruct (Py.is_space c) eqn:Hc.
    + destruct (Py.truthy cur); [constructor; [assumption|]|]; apply IH; reflexivity.
    + apply IH. rewrite has_space_app, Hcur. simpl. rewrite Hc. reflexivity.
Qed.

(** A text without whitespace is at most one token. *)
Lemma split_from_single s : forall cur,
  has_space s = false -> (length (Py.split_from cur s) <= 1)%nat.
Proof.
  induction s as [|c s IH]; intros cur Hs; simpl in *.
  - destruct (Py.truthy cur); simpl; lia.
  - apply orb_false_iff in Hs as [Hc Hs]. rewrite Hc. apply IH, Hs.
Qed.

Lemma split_lstrip s : Py.split (Py.lstrip s) = Py.split s.
Proof.
  unfold Py.split. induction s as [|c s IH]; simpl; [reflexivity|].
  destruct (Py.is_space c) eqn:Hc; simpl; [exact IH|].
  rewrite Hc. reflexivity.
Qed.

Lemma split_from_rstrip s : forall cur,
  Py.split_from cur (Py.rstrip s) = Py.split_from cur s.
Proof.
  induction s as [|c s IH]; intros cur; simpl; [reflexivity|].
  destruct (Py.is_space c) eqn:Hc; simpl.
  - destruct (Py.truthy (Py.rstrip s)) eqn:Hr; simpl.
    + rewrite Hc, !IH. reflexivity.
    + specialize (IH EmptyString).
      destruct (Py.rstrip s); [|discriminate]. simpl in IH.
      rewrite <- IH. reflexivity.
  - rewrite Hc. apply IH.
Qed.

Lemma split_strip s : Py.split (Py.strip s) = Py.split s.
Proof.
  unfold Py.strip, Py.split at 1. rewrite split_from_rstrip.
  apply split_lstrip.
Qed.

Lemma is_space_lower_char c : Py.is_space (Py.lower_char c) = Py.is_space c.
Proof. destruct c as [[] [] [] [] [] [] [] []]; reflexivity. Qed.

Lemma lower_app a b : Py.lower (a ++ b) = Py.lower a ++ Py.lower b.
Proof. induction a as [|c a IH]; simpl; [reflexivity|]. rewrite IH. reflexivity. Qed.

Lemma truthy_lower s : Py.truthy (Py.lower s) = Py.truthy s.
Proof. destruct s; reflexivity. Qed.

(** Lower-casing maps tokens to tokens. *)
Lemma split_from_lower s : forall cur,
  Py.split_from (Py.lower cur) (Py.lower s)
  = map Py.lower (Py.split_from cur s).
Proof.
  induction s as [|c s IH]; intros cur; simpl.
  - rewrite truthy_lower. destruct (Py.truthy cur); reflexivity.
  - rewrite is_space_lower_char, truthy_lower.
    destruct (Py.is_space c).
    + destruct (Py.truthy cur); simpl; rewrite <- (IH EmptyString); reflexivity.
    + rewrite <- IH, lower_app. reflexivity.
Qed.

Lemma split_lower s : Py.split (Py.lower s) = map Py.lower (Py.split s).
Proof. apply (split_from_lower s EmptyString). Qed.

(** A keyword that still holds whitespace equals no token. *)
Lemma count_spaced_keyword k s :
  has_space k = true -> Py.count k (Py.split s) = 0%nat.
Proof.
  intros Hk. unfold Py.count, Py.split.
  pose proof (split_from_no_space s EmptyString eq_refl) as Hall.
  induction Hall as [|w ws Hw _ IH]; [reflexivity|].
  rewrite filter_cons. destruct (decide (w = k)) as [->|_]; [congruence|].
  exact IH.
Qed.

(** A keyword of several tokens keeps a whitespace character after
    normalisation. *)
Lemma multi_token_keyword_has_space kw :
  (2 <= length (Py.split kw))%nat ->
  has_space (Py.strip (Py.lower kw)) = true.
Proof.
  intros Hlen.
  destruct (has_space (Py.strip (Py.lower kw))) eqn:Hsp; [reflexivity|].
  pose proof (split_from_single _ EmptyString Hsp) as Hle.
  fold (Py.split (Py.strip (Py.lower kw))) in Hle.
  rewrite split_strip, split_lower, length_map in Hle. lia.
Qed.

(** ** Rounding *)

Lemma round_half_even_floor x :
  Py.round_half_even x = Qfloor x \/
  (Py.round_half_even x = (Qfloor x + 1)%Z /\ (inject_Z (Qfloor x) < x)%Q).
Proof.
  unfold Py.round_half_even.
  destruct (Qcompare_spec (x - inject_Z (Qfloor x)) (1 # 2)) as [He|Hl|Hg].
  - destruct (Z.even (Qfloor x)); [left; reflexivity|right; split; [reflexivity|]].
    apply Qlt_minus_iff. unfold Qminus in He. rewrite He. reflexivity.
  - left; reflexivity.
  - right; split; [reflexivity|].
    apply Qlt_minus_iff. unfold Qminus in Hg.
    eapply Qlt_trans; [|exact Hg]. reflexivity.
Qed.

Lemma round_half_even_nonneg x : (0 <= x)%Q -> (0 <= Py.round_half_even x)%Z.
Proof.
  intros Hx. assert (0 <= Qfloor x)%Z as Hf.
  { change 0%Z with (Qfloor (inject_Z 0)). apply Qfloor_resp_le, Hx. }
  destruct (round_half_even_floor x) as [->|[-> _]]; lia.
Qed.

Lemma round_half_even_le x n :
  (x <= inject_Z n)%Q -> (Py.round_half_even x <= n)%Z.
Proof.
  intros Hx. assert (Qfloor x <= n)%Z as Hf.
  { rewrite <- (Qfloor_Z n). apply Qfloor_resp_le, Hx. }
  destruct (round_half_even_floor x) as [->|[-> Hlt]]; [assumption|].
  assert (inject_Z (Qfloor x) < inject_Z n)%Q as H' by (eapply Qlt_le_trans; eassumption).
  rewrite <- Zlt_Qlt in H'. lia.
Qed.

Lemma round_half_even_comp x y :
  (x == y)%Q -> Py.round_half_even x = Py.round_half_even y.
Proof.
  intros Hxy. unfold Py.round_half_even.
  rewrite (Qfloor_comp _ _ Hxy).
  assert (((x - inject_Z (Qfloor y)) ?= (1 # 2))%Q
          = ((y - inject_Z (Qfloor y)) ?= (1 # 2))%Q)
    as -> by (rewrite Hxy; reflexivity).
  reflexivity.
Qed.

Lemma round2_comp x y : (x == y)%Q -> Py.round2 x = Py.round2 y.
Proof.
  intros Hxy. unfold Py.round2.
  rewrite (round_half_even_comp (x * 100) (y * 100)); [reflexivity|].
  rewrite Hxy. reflexivity.
Qed.

Lemma round2_range x : (0 <= x)%Q -> (x <= 100)%Q ->
  (0 <= Py.round2 x)%Q /\ (Py.round2 x <= 100)%Q.
Proof.
  intros H0 H100.
  assert (0 <= Py.round_half_even (x * 100))%Z as Hlo.
  { apply round_half_even_nonneg. apply Qmult_le_0_compat; [assumption|discriminate]. }
  assert (Py.round_half_even (x * 100) <= 10000)%Z as Hhi.
  { apply round_half_even_le.
    change (inject_Z 10000) with (100 * 100)%Q.
    apply Qmult_le_compat_r; [assumption|discriminate]. }
  unfold Py.round2, Qle; simpl. lia.
Qed.

Lemma round2_zero x : (x == 0)%Q -> (Py.round2 x == 0)%Q.
Proof. intros Hx. rewrite (round2_comp x 0 Hx). reflexivity. Qed.


(** ** Binary rounding *)

Lemma round_half_even_near x :
  (x - (1 # 2) <= inject_Z (Py.round_half_even x))%Q
  /\ (inject_Z (Py.round_half_even x) <= x + (1 # 2))%Q.
Proof.
  pose proof (Qfloor_le x) as Hlo. pose proof (Qlt_floor x) as Hhi.
  rewrite inject_Z_plus in Hhi. change (inject_Z 1) with 1%Q in Hhi.
  unfold Py.round_half_even.
  destruct (Qcompare_spec (x - inject_Z (Qfloor x)) (1 # 2)) as [He|Hl|Hg].
  - destruct (Z.even (Qfloor x)); rewrite ?inject_Z_plus;
      change (inject_Z 1) with 1%Q; split; lra.
  - split; lra.
  - rewrite inject_Z_plus. change (inject_Z 1) with 1%Q. split; lra.
Qed.

(** Two exact values less than one apart round to integers at most one
    apart. *)
Lemma round_half_even_close x y :
  (x - y < 1)%Q -> (y - x < 1)%Q ->
  (Py.round_half_even x <= Py.round_half_even y + 1)%Z
  /\ (Py.round_half_even y <= Py.round_half_even x + 1)%Z.
Proof.
  intros Hxy Hyx.
  destruct (round_half_even_near x) as [Hx1 Hx2].
  destruct (round_half_even_near y) as [Hy1 Hy2].
  assert (inject_Z (Py.round_half_even x)
          < inject_Z (Py.round_half_even y + 2))%Q as H1
    by (rewrite inject_Z_plus; change (inject_Z 2) with 2%Q; lra).
  assert (inject_Z (Py.round_half_even y)
          < inject_Z (Py.round_half_even x + 2))%Q as H2
    by (rewrite inject_Z_plus; change (inject_Z 2) with 2%Q; lra).
  rewrite <- Zlt_Qlt in H1, H2. lia.
Qed.

Lemma round_half_even_below x n :
  (x < inject_Z n + (1 # 2))%Q -> (Py.round_half_even x <= n)%Z.
Proof.
  intros Hx. destruct (round_half_even_near x) as [_ Hhi].
  assert (inject_Z (Py.round_half_even x) < inject_Z (n + 1))%Q as H1
    by (rewrite inject_Z_plus; change (inject_Z 1) with 1%Q; lra).
  rewrite <- Zlt_Qlt in H1. lia.
Qed.

Lemma round_half_even_above x n :
  (inject_Z n - (1 # 2) < x)%Q -> (n <= Py.round_half_even x)%Z.
Proof.
  intros Hx. destruct (round_half_even_near x) as [Hlo _].
  assert (inject_Z (n - 1) < inject_Z (Py.round_half_even x))%Q as H1.
  { unfold Z.sub. rewrite inject_Z_plus.
    change (inject_Z (- (1))) with (- (1))%Q. lra. }
  rewrite <- Zlt_Qlt in H1. lia.
Qed.

Lemma exponent_le x : (0 < Qnum x)%Z -> (2 ^ Py.exponent x <= x)%Q.
Proof.
  intros Hpos. unfold Py.exponent.
  set (la := Z.log2 (Qnum x)). set (lb := Z.log2 (Zpos (Qden x))).
  destruct (Qle_bool (2 ^ (la - lb)) x) eqn:Htest;
    [apply Qle_bool_iff, Htest|].
  assert (0 <= la)%Z as Hla by apply Z.log2_nonneg.
  assert (0 <= lb)%Z as Hlb by apply Z.log2_nonneg.
  destruct (Z.log2_spec (Qnum x) Hpos) as [Ha _]. fold la in Ha.
  destruct (Z.log2_spec (Zpos (Qden x)) eq_refl) as [_ Hb]. fold lb in Hb.
  replace (la - lb - 1)%Z with (la + - (lb + 1))%Z by lia.
  rewrite Qpower_plus by discriminate.
  rewrite Qpower_opp.
  rewrite <- !(Zpower_Qpower 2) by lia.
  assert (0 < 2 ^ (lb + 1))%Z as Hpb by (apply Z.pow_pos_nonneg; lia).
  assert (0 < 2 ^ la)%Z as Hpa by (apply Z.pow_pos_nonneg; lia).
  apply Qle_shift_div_r; [rewrite <- (Zlt_Qlt 0); exact Hpb|].
  destruct x as [a b]. simpl in *.
  unfold Qle. simpl. rewrite Z.mul_1_r.
  replace (Z.succ lb) with (lb + 1)%Z in Hb by lia.
  nia.
Qed.

Lemma exponent_lt x : (0 < Qnum x)%Z -> (x < 2 ^ (Py.exponent x + 1))%Q.
Proof.
  intros Hpos. unfold Py.exponent.
  set (la := Z.log2 (Qnum x)). set (lb := Z.log2 (Zpos (Qden x))).
  destruct (Qle_bool (2 ^ (la - lb)) x) eqn:Htest.
  - assert (0 <= la)%Z as Hla by apply Z.log2_nonneg.
    assert (0 <= lb)%Z as Hlb by apply Z.log2_nonneg.
    destruct (Z.log2_spec (Qnum x) Hpos) as [_ Ha]. fold la in Ha.
    destruct (Z.log2_spec (Zpos (Qden x)) eq_refl) as [Hb _]. fold lb in Hb.
    replace (la - lb + 1)%Z with ((la + 1) + - lb)%Z by lia.
    rewrite Qpower_plus by discriminate.
    rewrite Qpower_opp.
    rewrite <- !(Zpower_Qpower 2) by lia.
    assert (0 < 2 ^ lb)%Z as Hpb by (apply Z.pow_pos_nonneg; lia).
    apply Qlt_shift_div_l; [rewrite <- (Zlt_Qlt 0); exact Hpb|].
    destruct x as [a b]. simpl in *.
    unfold Qlt. simpl. rewrite !Z.mul_1_r.
    replace (Z.succ la) with (la + 1)%Z in Ha by lia.
    nia.
  - replace (la - lb - 1 + 1)%Z with (la - lb)%Z by lia.
    apply Qnot_le_lt. intros Hle. apply Qle_bool_iff in Hle. congruence.
Qed.

(** The significand of [fl_pos x] has 53 bits. *)
Lemma fl_pos_significand x :
  (0 < Qnum x)%Z ->
  (2 ^ 52 <= Py.round_half_even (x * 2 ^ (52 - Py.exponent x)) <= 2 ^ 53)%Z.
Proof.
  intros Hpos.
  pose proof (exponent_le x Hpos) as Hlo.
  pose proof (exponent_lt x Hpos) as Hhi.
  set (e := Py.exponent x) in *.
  set (P := (2 ^ (52 - e))%Q).
  assert (0 < P)%Q as HP by (apply Qpower_0_lt; reflexivity).
  assert (2 ^ e * P == inject_Z (2 ^ 52))%Q as E1.
  { subst P. rewrite <- Qpower_plus by discriminate.
    replace (e + (52 - e))%Z with 52%Z by lia. reflexivity. }
  assert (2 ^ (e + 1) * P == inject_Z (2 ^ 53))%Q as E2.
  { subst P. rewrite <- Qpower_plus by discriminate.
    replace (e + 1 + (52 - e))%Z with 53%Z by lia. reflexivity. }
  assert (inject_Z (2 ^ 52) <= x * P)%Q as H1.
  { rewrite <- E1. apply Qmult_le_compat_r; [exact Hlo|apply Qlt_le_weak, HP]. }
  assert (x * P <= inject_Z (2 ^ 53))%Q as H2.
  { rewrite <- E2. apply Qmult_le_compat_r;
      [apply Qlt_le_weak, Hhi|apply Qlt_le_weak, HP]. }
  split.
  - apply round_half_even_above.
    assert (inject_Z (2 ^ 52) - (1 # 2) < inject_Z (2 ^ 52))%Q by reflexivity.
    eapply Qlt_le_trans; eassumption.
  - apply round_half_even_below.
    assert (inject_Z (2 ^ 53) < inject_Z (2 ^ 53) + (1 # 2))%Q by reflexivity.
    eapply Qle_lt_trans; eassumption.
Qed.

Lemma fl_pos_error x :
  (0 < Qnum x)%Z ->
  (x * (1 - unit_roundoff) <= Py.fl_pos x)%Q
  /\ (Py.fl_pos x <= x * (1 + unit_roundoff))%Q.
Proof.
  intros Hpos. pose proof (exponent_le x Hpos) as Hexp.
  unfold Py.fl_pos. set (e := Py.exponent x) in *.
  set (m := (x * 2 ^ (52 - e))%Q).
  destruct (round_half_even_near m) as [Hlo Hhi].
  set (R := inject_Z (Py.round_half_even m)) in *.
  set (P := (2 ^ (e - 52))%Q).
  assert (0 < P)%Q as HP by (apply Qpower_0_lt; reflexivity).
  assert (m * P == x)%Q as HmP.
  { subst m P. rewrite <- Qmult_assoc, <- Qpower_plus by discriminate.
    replace (52 - e + (e - 52))%Z with 0%Z by lia.
    change (2 ^ 0)%Q with 1%Q. apply Qmult_1_r. }
  assert (P == 2 ^ e * (1 # 4503599627370496))%Q as HPe.
  { subst P. replace (e - 52)%Z with (e + -52)%Z by lia.
    rewrite Qpower_plus by discriminate. reflexivity. }
  assert ((m - (1 # 2)) * P <= R * P)%Q as H1
    by (apply Qmult_le_compat_r; [exact Hlo|apply Qlt_le_weak, HP]).
  assert (R * P <= (m + (1 # 2)) * P)%Q as H2
    by (apply Qmult_le_compat_r; [exact Hhi|apply Qlt_le_weak, HP]).
  assert ((m - (1 # 2)) * P == x - (1 # 2) * P)%Q as E1
    by (rewrite <- HmP; ring).
  assert ((m + (1 # 2)) * P == x + (1 # 2) * P)%Q as E2
    by (rewrite <- HmP; ring).
  rewrite E1 in H1. rewrite E2 in H2.
  set (RP := (R * P)%Q) in *. set (E := (2 ^ e)%Q) in *.
  unfold unit_roundoff. split; lra.
Qed.

Lemma fl_error x :
  (0 <= x)%Q ->
  (x * (1 - unit_roundoff) <= Py.fl x)%Q
  /\ (Py.fl x <= x * (1 + unit_roundoff))%Q.
Proof.
  intros Hx. unfold Py.fl.
  destruct (Qnum x) eqn:Hnum.
  - assert (x == 0)%Q as Hz by (unfold Qeq; simpl; rewrite Hnum; reflexivity).
    rewrite Hz. unfold unit_roundoff. split; lra.
  - apply fl_pos_error. rewrite Hnum. reflexivity.
  - exfalso. unfold Qle in Hx. simpl in Hx. rewrite Hnum in Hx. lia.
Qed.

Lemma fl_nonneg x : (0 <= x)%Q -> (0 <= Py.fl x)%Q.
Proof.
  intros Hx. destruct (fl_error x Hx) as [Hlo _].
  unfold unit_roundoff in Hlo. lra.
Qed.

Lemma fl_zero x : Qnum x = 0%Z -> Py.fl x = 0%Q.
Proof. intros Hn. unfold Py.fl. rewrite Hn. reflexivity. Qed.
(** ** Scoring engine *)

Lemma count_count_occ k l : Py.count k l = count_occ string_dec l k.
Proof.
  unfold Py.count. induction l as [|w l IH]; [reflexivity|].
  rewrite filter_cons. simpl.
  destruct (decide (w = k)) as [Heq|Hne]; destruct (string_dec w k); simpl;
    congruence.
Qed.

Lemma count_le_length k l : (Py.count k l <= length l)%nat.
Proof. unfold Py.count. apply length_filter. Qed.

Section ScoringEngine.
Context `{Soup} `{Textstat}.

(** The float value before the last rounding, for [k] matches among [n]
    tokens. *)
Lemma density_value_bounds (k n : nat) :
  (0 < n)%nat -> (k <= n)%nat ->
  let q := (inject_Z (Z.of_nat k) / inject_Z (Z.of_nat n))%Q in
  let v := Py.fl (Py.fl q * 100) in
  (0 <= v)%Q
  /\ (v * 100 < 10000 + (1 # 2))%Q
  /\ (v * 100 - 100 * q * 100 < 1)%Q
  /\ (100 * q * 100 - v * 100 < 1)%Q.
Proof.
  intros Hn Hk q v.
  assert (0 < inject_Z (Z.of_nat n))%Q as Hpos
    by (rewrite <- (Zlt_Qlt 0); lia).
  assert (0 <= q)%Q as Hq0.
  { subst q. apply Qle_shift_div_l; [exact Hpos|].
    rewrite Qmult_0_l, <- (Zle_Qle 0). lia. }
  assert (q <= 1)%Q as Hq1.
  { subst q. apply Qle_shift_div_r; [exact Hpos|].
    rewrite Qmult_1_l, <- Zle_Qle. lia. }
  destruct (fl_error q Hq0) as [Ht1 Ht2].
  pose proof (fl_nonneg q Hq0) as Ht0.
  set (t := Py.fl q) in *.
  assert (0 <= t * 100)%Q as Ht100 by lra.
  destruct (fl_error (t * 100) Ht100) as [Hv1 Hv2].
  pose proof (fl_nonneg (t * 100) Ht100) as Hv0.
  fold v in Hv1, Hv2, Hv0.
  unfold unit_roundoff in *.
  repeat split; lra.
Qed.

Lemma keyword_density_float (a : SEOAnalyzer.t) :
  SEOAnalyzer.calculate_keyword_density a
  = float_keywordDensity (SEOAnalyzer._get_text_only a)
                         (SEOAnalyzer.target_keyword a).
Proof.
  unfold SEOAnalyzer.calculate_keyword_density, float_keywordDensity,
    exactTokenMatches.
  destruct (Py.split (Py.lower (SEOAnalyzer._get_text_only a))) as [|w ws] eqn:Hw;
    [reflexivity|].
  cbn [length Nat.eqb]. rewrite count_count_occ. reflexivity.
Qed.

Lemma keyword_density_range (a : SEOAnalyzer.t) :
  (0 <= SEOAnalyzer.calculate_keyword_density a)%Q /\
  (SEOAnalyzer.calculate_keyword_density a <= 100)%Q.
Proof.
  unfold SEOAnalyzer.calculate_keyword_density.
  destruct (Py.split (Py.lower (SEOAnalyzer._get_text_only a))) as [|w ws] eqn:Hw.
  - split; discriminate.
  - set (words := w :: ws).
    pose proof (count_le_length (SEOAnalyzer.target_keyword a) words) as Hle.
    destruct (density_value_bounds
                (Py.count (SEOAnalyzer.target_keyword a) words) (length words))
      as (Hv0 & Hv1 & _); [simpl; lia|exact Hle|].
    set (v := Py.fl _) in *.
    assert (0 <= Py.round_half_even (v * 100))%Z as Hlo.
    { apply round_half_even_nonneg.
      apply Qmult_le_0_compat; [exact Hv0|discriminate]. }
    assert (Py.round_half_even (v * 100) <= 10000)%Z as Hhi
      by (apply round_half_even_below; exact Hv1).
    unfold Py.round2, Qle; simpl. lia.
Qed.

Lemma keyword_density_no_match (a : SEOAnalyzer.t) :
  Py.count (SEOAnalyzer.target_keyword a)
           (Py.split (Py.lower (SEOAnalyzer._get_text_only a))) = 0%nat ->
  (SEOAnalyzer.calculate_keyword_density a == 0)%Q.
Proof.
  unfold SEOAnalyzer.calculate_keyword_density. intros ->.
  destruct (Py.split _) as [|w ws]; [reflexivity|].
  set (n := length (w :: ws)).
  assert (Py.fl (inject_Z (Z.of_nat 0) / inject_Z (Z.of_nat n)) = 0%Q) as ->
    by (apply fl_zero; reflexivity).
  reflexivity.
Qed.

(** The code's density and the exact formula differ by at most one
    hundredth. *)
Lemma keyword_density_near_formula (a : SEOAnalyzer.t) :
  let d := SEOAnalyzer.calculate_keyword_density a in
  let exact := spec_keywordDensity (SEOAnalyzer._get_text_only a)
                                   (SEOAnalyzer.target_keyword a) in
  (d <= exact + (1 # 100))%Q /\ (exact <= d + (1 # 100))%Q.
Proof.
  intros d exact. subst d exact.
  unfold SEOAnalyzer.calculate_keyword_density, spec_keywordDensity,
    exactTokenMatches.
  destruct (Py.split (Py.lower (SEOAnalyzer._get_text_only a))) as [|w ws] eqn:Hw;
    [split; discriminate|].
  cbn [length Nat.eqb]. rewrite <- count_count_occ.
  set (words := w :: ws).
  pose proof (count_le_length (SEOAnalyzer.target_keyword a) words) as Hle.
  set (k := Py.count (SEOAnalyzer.target_keyword a) words) in *.
  change (S (length ws)) with (length words).
  destruct (density_value_bounds k (length words))
    as (_ & _ & Hd1 & Hd2); [simpl; lia|exact Hle|].
  set (q := (inject_Z (Z.of_nat k) / inject_Z (Z.of_nat (length words)))%Q) in *.
  set (v := Py.fl (Py.fl q * 100)) in *.
  assert (100 * inject_Z (Z.of_nat k) / inject_Z (Z.of_nat (length words)) * 100
          == 100 * q * 100)%Q as Hform.
  { subst q. unfold Qdiv. ring. }
  unfold Py.round2.
  rewrite (round_half_even_comp _ _ Hform).
  destruct (round_half_even_close (v * 100) (100 * q * 100) Hd1 Hd2)
    as [Hc1 Hc2].
  unfold Qle, Qplus; simpl. lia.
Qed.

(** Every entry of a generated issue map is the table's entry for its
    key. *)
Lemma generate_issues_from_table (a : SEOAnalyzer.t) :
  Forall (fun kv => dict_get kv.1 ISSUE_DEFINITIONS = Some kv.2)
         (SEOAnalyzer.generate_issues a).
Proof.
  unfold SEOAnalyzer.generate_issues.
  cbv zeta.
  repeat match goal with
    | |- context [Qlt_le_dec ?x ?y] => destruct (Qlt_le_dec x y)
    | |- context [String.eqb (SEOAnalyzer.input_type a) ?t] =>
        destruct (String.eqb (SEOAnalyzer.input_type a) t)
    | |- context [SEOAnalyzer.no_heading ?t ?h] =>
        destruct (SEOAnalyzer.no_heading t h)
    | |- context [SEOAnalyzer.check_meta_description a] =>
        destruct (SEOAnalyzer.check_meta_description a) as [[]|]
    end;
    cbn; repeat constructor.
Qed.

Lemma score_loop_sum (issues : dict IssueDefinition) :
  Forall (fun kv => dict_get kv.1 ISSUE_DEFINITIONS = Some kv.2) issues ->
  forall acc,
    fold_left
      (fun score '(issue_key, _) =>
         let severity :=
           match dict_get issue_key ISSUE_DEFINITIONS with
           | Some d => severity d
           | None => low
           end in
         (score - SEOAnalyzer.SEVERITY_PENALTIES severity)%Z)
      issues acc
    = (acc - list_sum_Z (map (fun kv => spec_penalty (severity kv.2)) issues))%Z.
Proof.
  induction 1 as [|[k d] issues Hk _ IH]; intros acc; simpl.
  - lia.
  - rewrite IH. simpl in Hk. rewrite Hk.
    destruct (severity d); simpl; lia.
Qed.

End ScoringEngine.

(** ** Keyword density and composite score *)

Lemma init_target_keyword content kw ty a :
  SEOAnalyzer.init content (Some kw) ty = inr a ->
  SEOAnalyzer.target_keyword a = Py.strip (Py.lower kw).
Proof.
  unfold SEOAnalyzer.init. intros Hinit.
  repeat match type of Hinit with
         | (if ?c then _ else _) = _ => destruct c; [discriminate|]
         end.
  injection Hinit as <-. reflexivity.
Qed.

Section ScoringClaims.
Context `{Soup} `{Textstat}.

(** C5. For an analyzer built from any content, keyword and input kind, the
    keyword density is computed in binary floating point in the order the
    code has it: the matches over the tokens, rounded to a float, times a
    hundred, rounded to a float, then rounded to two decimals.  Matches are
    whole-token equalities of the keyword as compared (lower-cased and
    trimmed) over the lower-cased, whitespace-split derived text.  The value
    is [0] without tokens, is within one hundredth of the exact formula
    [round(100 * matches / tokens, 2)], lies in [0, 100], and is [0] when no
    token matches.  For "test keyword test" and "test" it is 66.67. *)
Theorem keyword_density_float_formula
    (content kw ty : string) (a : SEOAnalyzer.t) :
  SEOAnalyzer.init (Some content) (Some kw) (Some ty) = inr a ->
  let text := SEOAnalyzer._get_text_only a in
  let keyword := Py.strip (Py.lower kw) in
  let tokens := Py.split (Py.lower text) in
  let d := SEOAnalyzer.calculate_keyword_density a in
  d = float_keywordDensity text keyword
  /\ (tokens = [] -> d = 0%Q)
  /\ (tokens <> [] ->
      d = Py.round2
            (Py.fl (Py.fl (inject_Z (Z.of_nat (exactTokenMatches keyword tokens))
                           / inject_Z (Z.of_nat (length tokens)))
                    * 100)))
  /\ (d <= spec_keywordDensity text keyword + (1 # 100))%Q
  /\ (spec_keywordDensity text keyword <= d + (1 # 100))%Q
  /\ (0 <= d)%Q /\ (d <= 100)%Q
  /\ (exactTokenMatches keyword tokens = 0%nat -> (d == 0)%Q)
  /\ (content = "test keyword test" -> kw = "test" -> ty = "content" ->
      d = 6667 # 100).
Proof.
  intros Hinit text keyword tokens d.
  pose proof (init_target_keyword _ _ _ _ Hinit) as Hk.
  assert (d = float_keywordDensity text keyword) as Hfloat
    by (subst d text keyword; rewrite <- Hk; apply keyword_density_float).
  pose proof (keyword_density_near_formula a) as Hnear.
  cbv zeta in Hnear. rewrite Hk in Hnear. fold text keyword d in Hnear.
  split; [exact Hfloat|].
  split.
  { intros Hnone. subst d. unfold SEOAnalyzer.calculate_keyword_density.
    fold text tokens. rewrite Hnone. reflexivity. }
  split.
  { intros Hsome. rewrite Hfloat. unfold float_keywordDensity.
    fold tokens. destruct tokens; [contradiction|reflexivity]. }
  split; [apply Hnear|]. split; [apply Hnear|].
  split; [apply keyword_density_range|].
  split; [apply keyword_density_range|].
  split.
  { intros Hzero. apply keyword_density_no_match.
    rewrite Hk, count_count_occ. exact Hzero. }
  intros -> -> ->. cbv in Hinit. injection Hinit as <-.
  vm_compute. reflexivity.
Qed.

(** C6. The composite score of an analyzer is the design document's formula
    on the issue map that issue detection produces: a hundred minus the sum,
    over all detected issues, of the penalty of the issue's severity (low 3,
    medium 7, high 15), clamped to [0, 100].  A map of exactly two medium
    issues scores 86. *)
Theorem seo_score_formula (a : SEOAnalyzer.t) :
  let issues := SEOAnalyzer.generate_issues a in
  SEOAnalyzer.calculate_mock_seo_score a = spec_calculateScore issues
  /\ SEOAnalyzer.calculate_mock_seo_score a
     = clamp (100 - list_sum_Z
                      (map (fun kv => match severity kv.2 with
                                      | low => 3 | medium => 7 | high => 15
                                      end%Z) issues)) 0 100
  /\ (map (fun kv => severity kv.2) issues = [medium; medium] ->
      SEOAnalyzer.calculate_mock_seo_score a = 86%Z)
  /\ SEOAnalyzer.score_of_issues
       [("keyword_density_low", issue_definition "keyword_density_low");
        ("readability_poor", issue_definition "readability_poor")] = 86%Z.
Proof.
  intros issues.
  assert (SEOAnalyzer.calculate_mock_seo_score a = spec_calculateScore issues)
    as Hspec.
  { unfold SEOAnalyzer.calculate_mock_seo_score, SEOAnalyzer.score_of_issues,
      SEOAnalyzer.score_loop, spec_calculateScore, clamp.
    rewrite score_loop_sum by apply generate_issues_from_table.
    reflexivity. }
  repeat split.
  - exact Hspec.
  - exact Hspec.
  - intros Hsev. rewrite Hspec. unfold spec_calculateScore.
    rewrite <- (map_map (fun kv : string * IssueDefinition => severity kv.2)
                        spec_penalty), Hsev.
    reflexivity.
Qed.

(** A keyword of several tokens matches no token: the density is zero. *)
Lemma multi_word_density_zero (content kw ty : option string)
    (keyword : string) (a : SEOAnalyzer.t) :
  kw = Some keyword ->
  SEOAnalyzer.init content kw ty = inr a ->
  (2 <= length (Py.split keyword))%nat ->
  (SEOAnalyzer.calculate_keyword_density a == 0)%Q.
Proof.
  intros -> Hinit Hlen. apply keyword_density_no_match.
  rewrite (init_target_keyword _ _ _ _ Hinit).
  apply count_spaced_keyword, multi_token_keyword_has_space, Hlen.
Qed.

End ScoringClaims.

(** Substrings do not count: "test" occurs inside both tokens of
    "testing tests" and matches neither. *)
Example density_ignores_substrings :
  forall a, SEOAnalyzer.init (Some "testing tests") (Some "test")
                             (Some "content") = inr a ->
  @SEOAnalyzer.calculate_keyword_density Fixtures.plain_soup a = 0 # 100.
Proof. intros a Ha. cbv in Ha. injection Ha as <-. vm_compute. reflexivity. Qed.

(** With 23 matches among 160 tokens the quotient 0.14375 is not a binary
    float; times a hundred it gives 14.374999999999998, which rounds to
    14.37, while the exact formula gives the tie 14.375 and rounds it to
    14.38.  The document's order of operations gives 14.38 in floats too:
    2300 and 2300 / 160 are floats. *)
Example density_of_23_in_160 :
  let a := {| SEOAnalyzer.content := MoreFixtures.dense_content;
              SEOAnalyzer.target_keyword := "test";
              SEOAnalyzer.input_type := "content" |} in
  SEOAnalyzer.init (Some MoreFixtures.dense_content) (Some "test")
                   (Some "content") = inr a
  /\ length (Py.split (Py.lower MoreFixtures.dense_content)) = 160%nat
  /\ exactTokenMatches "test" (Py.split (Py.lower MoreFixtures.dense_content))
     = 23%nat
  /\ @SEOAnalyzer.calculate_keyword_density Fixtures.plain_soup a
     = 1437 # 100
  /\ spec_keywordDensity MoreFixtures.dense_content "test" = 1438 # 100
  /\ Py.round2 (Py.fl (Py.fl (100 * 23) / 160)) = 1438 # 100.
Proof. vm_compute. repeat split. Qed.

(** C5, as stated, fails: for the text of [density_of_23_in_160] the code's
    density is 14.37 and the exact formula's is 14.38. *)
Lemma keyword_density_not_exact :
  ~ @keyword_density_exact Fixtures.plain_soup.
Proof.
  intros Hexact.
  pose proof (Hexact MoreFixtures.dense_content "test" "content" _
                ltac:(vm_compute; reflexivity)) as Heq.
  vm_compute in Heq. discriminate Heq.
Qed.

Lemma keyword_density_float_formula_witness :
  exists a,
    SEOAnalyzer.init (Some "test keyword test") (Some "test") (Some "content")
    = inr a
    /\ @SEOAnalyzer.calculate_keyword_density Fixtures.plain_soup a
       = 6667 # 100.
Proof.
  eexists. split; [reflexivity|].
  refine (proj2 (proj2 (proj2 (proj2 (proj2 (proj2 (proj2 (proj2
    (@keyword_density_float_formula Fixtures.plain_soup
       "test keyword test" "test" "content" _ eq_refl))))))))
    eq_refl eq_refl eq_refl).
Defined.

(** ** Single stage invocations *)

Lemma retry_with_exc task m id n e c w :
  retry task m id n (Some e) c w
  = if (m <? S n)%nat then (w, Exc e)
    else (enqueue {| msg_task := task; msg_record_id := id;
                     msg_retries := S n; msg_countdown := c |} w,
          Retry c).
Proof. unfold retry. destruct (m <? S n)%nat; reflexivity. Qed.

(** With no exception passed, exhaustion raises
    [MaxRetriesExceededError]. *)
Lemma retry_without_exc_exhausted task m id n c w :
  (m < S n)%nat ->
  retry task m id n None c w = (w, MaxRetriesExceededError).
Proof.
  intros Hlt. unfold retry.
  destruct (m <? S n)%nat eqn:Hm; [reflexivity|].
  apply Nat.ltb_ge in Hm. lia.
Qed.

Section StageClaims.
Context `{Soup} `{Textstat}.

(** What each task does when its body raises [e]. *)
Lemma analyze_content_task_raises env n id w (r : AnalysisRecord) e :
  analysis_records w !! id = Some r ->
  analyze_content_body env r = inl e ->
  analyze_content_task env n id w
  = if (max_retries <? S n)%nat then (w, Raises (Exc e))
    else (enqueue {| msg_task := AnalyzeContent; msg_record_id := id;
                     msg_retries := S n;
                     msg_countdown := 2 ^ Z.of_nat n |} w,
          Raises (Retry (2 ^ Z.of_nat n))).
Proof.
  intros Hr He. unfold analyze_content_task. rewrite Hr, He, retry_with_exc.
  destruct (max_retries <? S n)%nat; reflexivity.
Qed.

Lemma optimize_after_analysis_task_raises env n id w (r : AnalysisRecord) e :
  analysis_records w !! id = Some r ->
  SEOOptimizerService.post_analysis_optimize
    (_send_request env) (input_content r) (target_keyword r) = inl e ->
  optimize_after_analysis_task env n id w
  = if (max_retries <? S n)%nat then (w, Raises (Exc e))
    else (enqueue {| msg_task := OptimizeAfterAnalysis; msg_record_id := id;
                     msg_retries := S n;
                     msg_countdown := 2 ^ Z.of_nat n |} w,
          Raises (Retry (2 ^ Z.of_nat n))).
Proof.
  intros Hr He. unfold optimize_after_analysis_task.
  rewrite Hr, He, retry_with_exc.
  destruct (max_retries <? S n)%nat; reflexivity.
Qed.

Lemma optimize_content_task_raises env n id w (r r1 : OptimizationRecord) e :
  optimization_records w !! id = Some r ->
  optimize_content_body env r = inl (e, r1) ->
  optimize_content_task env n id w
  = if (max_retries <? S n)%nat then (w, Raises (Exc e))
    else (enqueue {| msg_task := OptimizeContent; msg_record_id := id;
                     msg_retries := S n;
                     msg_countdown := 2 ^ Z.of_nat n |} w,
          Raises (Retry (2 ^ Z.of_nat n))).
Proof.
  intros Hr He. unfold optimize_content_task. rewrite Hr, He, retry_with_exc.
  destruct (max_retries <? S n)%nat; reflexivity.
Qed.

(** With the retries used up, each task lets the exception of its body
    out and leaves the store and the queue as they were. *)
Lemma exhausted_task_reraises env n id w e :
  (max_retries <= n)%nat ->
  (forall r : AnalysisRecord,
     analysis_records w !! id = Some r ->
     (analyze_content_body env r = inl e ->
      analyze_content_task env n id w = (w, Raises (Exc e)))
     /\ (SEOOptimizerService.post_analysis_optimize
           (_send_request env) (input_content r) (target_keyword r) = inl e ->
         optimize_after_analysis_task env n id w = (w, Raises (Exc e))))
  /\ (forall r r1 : OptimizationRecord,
        optimization_records w !! id = Some r ->
        optimize_content_body env r = inl (e, r1) ->
        optimize_content_task env n id w = (w, Raises (Exc e))).
Proof.
  intros Hn.
  assert ((max_retries <? S n)%nat = true) as Hlt by (apply Nat.ltb_lt; lia).
  split.
  - intros r Hr. split; intros Hbody.
    + rewrite (analyze_content_task_raises _ _ _ _ _ _ Hr Hbody), Hlt.
      reflexivity.
    + rewrite (optimize_after_analysis_task_raises _ _ _ _ _ _ Hr Hbody), Hlt.
      reflexivity.
  - intros r r1 Hr Hbody.
    rewrite (optimize_content_task_raises _ _ _ _ _ _ _ Hr Hbody), Hlt.
    reflexivity.
Qed.

(** C8. A stage invoked with an identifier that is absent from its table
    returns normally and leaves the store and the queue as they were: no
    record is created or changed, nothing is sent, nothing is raised. *)
Theorem missing_record_is_noop env n id w :
  (analysis_records w !! id = None ->
   analyze_content_task env n id w = (w, Returned)
   /\ optimize_after_analysis_task env n id w = (w, Returned))
  /\ (optimization_records w !! id = None ->
      optimize_content_task env n id w = (w, Returned)).
Proof.
  split.
  - intros Hnone.
    unfold analyze_content_task, optimize_after_analysis_task.
    rewrite Hnone. split; reflexivity.
  - intros Hnone. unfold optimize_content_task. rewrite Hnone. reflexivity.
Qed.

(** The body of stage A on a resolved input that the scoring engine
    accepts: the record it hands to [save]. *)
Lemma analyze_content_body_success env (r : AnalysisRecord) content ty analyzer :
  resolved_input env r content ty ->
  SEOAnalyzer.init content (Some (target_keyword r)) (Some ty) = inr analyzer ->
  exists r' : AnalysisRecord,
    analyze_content_body env r = inr r'
    /\ status r' = processing
    /\ completed_at r' = completed_at r
    /\ input_content r' = content
    /\ word_count r' = Some (Z.of_nat (SEOAnalyzer.count_words analyzer))
    /\ keyword_density r'
       = Some (SEOAnalyzer.calculate_keyword_density analyzer)
    /\ readability_score r' = Some (SEOAnalyzer.calculate_readability analyzer)
    /\ avg_sentence_length r'
       = Some (SEOAnalyzer.average_sentence_length analyzer)
    /\ seo_score r'
       = Some (inject_Z (SEOAnalyzer.calculate_mock_seo_score analyzer))
    /\ issues r' = Some (SEOAnalyzer.generate_issues analyzer)
    /\ processing_time r' = Some (elapsed_ms env)
    /\ target_keyword r' = target_keyword r
    /\ input_url r' = input_url r
    /\ created_at r' = created_at r
    /\ optimized_content r' = optimized_content r
    /\ optimized_imporvements r' = optimized_imporvements r.
Proof.
  intros Hres Hinit. unfold analyze_content_body.
  destruct Hres as [(url & page & Hurl & Htruthy & Hfetch & -> & ->)
                   |(Hurl & -> & ->)].
  - rewrite Hurl, Htruthy, Hfetch. simpl. rewrite Hinit.
    eexists. split; [reflexivity|]. repeat split.
  - assert ((match input_url r with
             | Some url =>
                 if Py.truthy url
                 then ("html", match extract_html env url with
                               | inl e => inl e
                               | inr page => inr (Some page)
                               end)
                 else ("content", inr (input_content r))
             | None => ("content", inr (input_content r))
             end) = ("content", inr (input_content r))) as ->
      by (destruct Hurl as [->| ->]; reflexivity).
    simpl. rewrite Hinit.
    eexists. split; [reflexivity|]. repeat split.
Qed.

(** A normal return of stage A on a stored record comes from a resolved
    input that the scoring engine accepted. *)
Lemma analyze_content_task_returned env n id w (r : AnalysisRecord) w' :
  analysis_records w !! id = Some r ->
  analyze_content_task env n id w = (w', Returned) ->
  exists content ty analyzer,
    resolved_input env r content ty
    /\ SEOAnalyzer.init content (Some (target_keyword r)) (Some ty)
       = inr analyzer.
Proof.
  intros Hr Hrun.
  destruct (analyze_content_body env r) as [e|r1] eqn:Hbody.
  { rewrite (analyze_content_task_raises _ _ _ _ _ _ Hr Hbody) in Hrun.
    destruct (max_retries <? S n)%nat; discriminate. }
  unfold analyze_content_body in Hbody.
  set (resolved := match input_url r with
                   | Some url => _ | None => _ end) in Hbody.
  assert (exists content ty,
    resolved = (ty, inr content) /\ resolved_input env r content ty)
    as (content & ty & Hres & Hwhich).
  { subst resolved. unfold resolved_input.
    destruct (input_url r) as [url|] eqn:Hurl.
    - destruct (Py.truthy url) eqn:Htruthy.
      + destruct (extract_html env url) as [e|page] eqn:Hfetch;
          [simpl in Hbody; discriminate|].
        exists (Some page), "html". split; [reflexivity|].
        left. exists url, page. auto.
      + exists (input_content r), "content". split; [reflexivity|].
        right. destruct url; [|discriminate]. auto.
    - exists (input_content r), "content". split; [reflexivity|]. auto. }
  rewrite Hres in Hbody. simpl in Hbody.
  destruct (SEOAnalyzer.init content (Some (target_keyword r)) (Some ty))
    as [e|analyzer] eqn:Hinit; [discriminate|].
  exists content, ty, analyzer. auto.
Qed.

(** C7. Stage A on a stored record whose input resolves (the fetched page
    when the record has a URL, else the stored content) and is accepted by
    the scoring engine returns normally; the record it saves under the same
    identifier holds the resolved content and every metric of the analysis,
    its status is [processing] and its completion time is what it was; the
    other table is untouched and one message for stage B is appended to
    the queue.  These are the only normal returns of stage A on a stored
    record: each comes from a resolved and accepted input. *)
Theorem stage_a_success env n id w (r : AnalysisRecord) :
  analysis_records w !! id = Some r ->
  (forall content ty analyzer,
     resolved_input env r content ty ->
     SEOAnalyzer.init content (Some (target_keyword r)) (Some ty)
     = inr analyzer ->
     exists r' : AnalysisRecord,
       analyze_content_task env n id w
       = ({| analysis_records := <[id := r']> (analysis_records w);
             optimization_records := optimization_records w;
             queue := (queue w
                       ++ [{| msg_task := OptimizeAfterAnalysis;
                              msg_record_id := id;
                              msg_retries := 0; msg_countdown := 0 |}])%list |},
          Returned)
       /\ analysis_records (analyze_content_task env n id w).1 !! id = Some r'
       /\ status r' = processing
       /\ completed_at r' = completed_at r
       /\ input_content r' = content
       /\ word_count r' = Some (Z.of_nat (SEOAnalyzer.count_words analyzer))
       /\ keyword_density r'
          = Some (SEOAnalyzer.calculate_keyword_density analyzer)
       /\ readability_score r'
          = Some (SEOAnalyzer.calculate_readability analyzer)
       /\ avg_sentence_length r'
          = Some (SEOAnalyzer.average_sentence_length analyzer)
       /\ seo_score r'
          = Some (inject_Z (SEOAnalyzer.calculate_mock_seo_score analyzer))
       /\ issues r' = Some (SEOAnalyzer.generate_issues analyzer)
       /\ target_keyword r' = target_keyword r
       /\ input_url r' = input_url r
       /\ optimized_content r' = optimized_content r
       /\ optimized_imporvements r' = optimized_imporvements r)
  /\ (forall w',
        analyze_content_task env n id w = (w', Returned) ->
        exists content ty analyzer,
          resolved_input env r content ty
          /\ SEOAnalyzer.init content (Some (target_keyword r)) (Some ty)
             = inr analyzer).
Proof.
  intros Hr. split.
  - intros content ty analyzer Hres Hinit.
    destruct (analyze_content_body_success env r content ty analyzer
                Hres Hinit)
      as (r' & Hbody & Hst & Hdone & Hcontent & Hwc & Hkd & Hrs & Hasl
          & Hscore & Hissues & _ & Hkw & Hurl & _ & Hoc & Hoi).
    exists r'.
    assert (analyze_content_task env n id w
            = ({| analysis_records := <[id := r']> (analysis_records w);
                  optimization_records := optimization_records w;
                  queue := (queue w
                            ++ [{| msg_task := OptimizeAfterAnalysis;
                                   msg_record_id := id;
                                   msg_retries := 0;
                                   msg_countdown := 0 |}])%list |},
               Returned)) as Hrun
      by (unfold analyze_content_task; rewrite Hr, Hbody; reflexivity).
    split; [exact Hrun|].
    split; [rewrite Hrun; apply lookup_insert_eq|].
    repeat (split; [assumption|]). assumption.
  - intros w' Hrun. exact (analyze_content_task_returned _ _ _ _ _ _ Hr Hrun).
Qed.

(** C9. In the direct-optimize stage, when the backend's answer carries an
    empty or whitespace-only [optimized_content], building the scorer for
    the density raises the non-empty-content [ValueError]; the invocation
    then goes through the exception handler: it never returns normally and
    it saves nothing, so the stored record is not completed and does not
    hold the empty content.  With retries left it is sent again with delay
    [2 ^ retries] and raises [Retry].  With the retries used up the
    [ValueError] itself leaves the task, nothing is sent, and the record is
    left as stored: a record that was [processing] is not marked [failed]
    and gets no completion time. *)
Theorem empty_rewrite_never_completes env n id w (r : OptimizationRecord)
    results s :
  optimization_records w !! id = Some r ->
  SEOOptimizerService.optimize (_send_request env) (input_content r)
    (target_keyword r) (tone r) (target_length r) = inr results ->
  res_optimized_content results = Some s ->
  Py.strip s = "" ->
  SEOAnalyzer.init (Some s) (Some (target_keyword r)) (Some "content")
  = inl (ValueError "SEOAnalyzer requires non-empty content.")
  /\ (optimize_content_task env n id w).2 <> Returned
  /\ analysis_records (optimize_content_task env n id w).1 = analysis_records w
  /\ optimization_records (optimize_content_task env n id w).1
     = optimization_records w
  /\ optimization_records (optimize_content_task env n id w).1 !! id = Some r
  /\ ((n < max_retries)%nat ->
      optimize_content_task env n id w
      = (enqueue {| msg_task := OptimizeContent; msg_record_id := id;
                    msg_retries := S n;
                    msg_countdown := 2 ^ Z.of_nat n |} w,
         Raises (Retry (2 ^ Z.of_nat n))))
  /\ ((max_retries <= n)%nat ->
      optimize_content_task env n id w
      = (w, Raises (Exc (ValueError "SEOAnalyzer requires non-empty content.")))
      /\ (status r = processing ->
          forall r' : OptimizationRecord,
            optimization_records (optimize_content_task env n id w).1 !! id
            = Some r' ->
            status r' <> failed /\ completed_at r' = completed_at r)).
Proof.
  intros Hr Hopt Hs Hblank.
  assert (SEOAnalyzer.init (Some s) (Some (target_keyword r)) (Some "content")
          = inl (ValueError "SEOAnalyzer requires non-empty content."))
    as Hinit.
  { unfold SEOAnalyzer.init, SEOAnalyzer.blank. rewrite Hblank.
    simpl. rewrite orb_true_r. reflexivity. }
  assert (exists r1, optimize_content_body env r
            = inl (ValueError "SEOAnalyzer requires non-empty content.", r1))
    as [r1 Hbody].
  { unfold optimize_content_body. rewrite Hopt. simpl. rewrite Hs, Hinit.
    eexists. reflexivity. }
  rewrite (optimize_content_task_raises _ _ _ _ _ _ _ Hr Hbody).
  split; [exact Hinit|].
  destruct (max_retries <? S n)%nat eqn:Hlt; simpl.
  - apply Nat.ltb_lt in Hlt.
    split; [discriminate|]. split; [reflexivity|]. split; [reflexivity|].
    split; [exact Hr|]. split; [intros Hn; lia|].
    intros _. split; [reflexivity|].
    intros Hst r' Hr'. rewrite Hr in Hr'. injection Hr' as <-.
    split; [rewrite Hst; discriminate|reflexivity].
  - apply Nat.ltb_ge in Hlt.
    split; [discriminate|]. split; [reflexivity|]. split; [reflexivity|].
    split; [exact Hr|]. split; [reflexivity|].
    intros Hn. lia.
Qed.

(** C3, as the code has it. A failure of the scoring engine's argument
    checks in stage A is handled like every other exception of the stage
    body: with retries left the task is sent again, with delay
    [2 ^ retries], [Retry] is raised, and the store is left as it was. *)
Theorem validation_failure_is_retried env n id w (r : AnalysisRecord) e :
  analysis_records w !! id = Some r ->
  analyze_content_body env r = inl e ->
  (n < max_retries)%nat ->
  analyze_content_task env n id w
  = (enqueue {| msg_task := AnalyzeContent; msg_record_id := id;
                msg_retries := S n; msg_countdown := 2 ^ Z.of_nat n |} w,
     Raises (Retry (2 ^ Z.of_nat n)))
  /\ analysis_records (analyze_content_task env n id w).1 !! id = Some r.
Proof.
  intros Hr Hbody Hn.
  rewrite (analyze_content_task_raises _ _ _ _ _ _ Hr Hbody).
  destruct (max_retries <? S n)%nat eqn:Hlt.
  - apply Nat.ltb_lt in Hlt. lia.
  - split; [reflexivity|exact Hr].
Qed.

(** C2, as the code has it. A second run of stage B on a completed record
    asks the backend again.  If it answers, the record is saved with the
    new answer as [optimized_content] and [optimized_imporvements], status
    [completed], and the current time as [completed_at]: the content is
    kept when the answer repeats it, and the completion time does not move
    backward when the clock did not.  If the call raises, the store is left
    as it was. *)
Theorem stage_b_rerun_overwrites env n id w (r : AnalysisRecord) :
  analysis_records w !! id = Some r ->
  status r = completed ->
  match SEOOptimizerService.post_analysis_optimize
          (_send_request env) (input_content r) (target_keyword r) with
  | inr results =>
      exists r' : AnalysisRecord,
        optimize_after_analysis_task env n id w
        = (save_analysis id r' w, Returned)
        /\ status r' = completed
        /\ optimized_content r' = res_optimized_content results
        /\ optimized_imporvements r' = Some (res_improvements_done results)
        /\ completed_at r' = Some (now env)
        /\ (res_optimized_content results = optimized_content r ->
            optimized_content r' = optimized_content r)
        /\ (not_backward (completed_at r) (Some (now env)) ->
            not_backward (completed_at r) (completed_at r'))
  | inl e =>
      analysis_records (optimize_after_analysis_task env n id w).1
      = analysis_records w
  end.
Proof.
  intros Hr Hst.
  destruct (SEOOptimizerService.post_analysis_optimize _ _ _)
    as [e|results] eqn:Hcall.
  - rewrite (optimize_after_analysis_task_raises _ _ _ _ _ _ Hr Hcall).
    destruct (max_retries <? S n)%nat; reflexivity.
  - eexists. unfold optimize_after_analysis_task. rewrite Hr, Hcall.
    split; [reflexivity|]. simpl. repeat split; auto.
Qed.

End StageClaims.

(** ** Multi-word keywords *)

Section MultiWord.
Context `{Soup}.

(** C10. A target keyword that splits into more than one token equals no
    token of any text, so the engine's density for it is zero whatever the
    content; hence a direct-optimize invocation that completes stores
    [optimized_keyword_denisty = 0] for such a keyword. *)
Theorem multi_word_keyword_density_zero (kw : string) :
  (2 <= length (Py.split kw))%nat ->
  (forall content ty a,
     SEOAnalyzer.init (Some content) (Some kw) (Some ty) = inr a ->
     (SEOAnalyzer.calculate_keyword_density a == 0)%Q)
  /\ (forall env n id w (r : OptimizationRecord) w',
        optimization_records w !! id = Some r ->
        target_keyword r = kw ->
        optimize_content_task env n id w = (w', Returned) ->
        exists (r' : OptimizationRecord) d,
          optimization_records w' !! id = Some r'
          /\ status r' = completed
          /\ optimized_keyword_denisty r' = Some d
          /\ (d == 0)%Q).
Proof.
  intros Hlen. split.
  - intros content ty a Hinit.
    eapply multi_word_density_zero; [reflexivity|exact Hinit|exact Hlen].
  - intros env n id w r w' Hr Hkw Hrun.
    destruct (optimize_content_body env r) as [[e r1]|r1] eqn:Hbody.
    { rewrite (optimize_content_task_raises _ _ _ _ _ _ _ Hr Hbody) in Hrun.
      destruct (max_retries <? S n)%nat; discriminate. }
    unfold optimize_content_task in Hrun. rewrite Hr, Hbody in Hrun.
    injection Hrun as <-.
    unfold optimize_content_body in Hbody.
    destruct (SEOOptimizerService.optimize _ _ _ _ _) as [e|results];
      [discriminate|].
    destruct (SEOAnalyzer.init _ _ _) as [e|analyzer] eqn:Hinit;
      [discriminate|].
    injection Hbody as <-.
    eexists. eexists. split; [apply lookup_insert_eq|].
    split; [reflexivity|]. split; [reflexivity|].
    eapply multi_word_density_zero; [reflexivity|exact Hinit|].
    simpl. rewrite Hkw. exact Hlen.
Qed.

End MultiWord.

(** ** The properties on the fixtures *)

Import Fixtures.

(** Both stages of the chain, run once each on [analysis_world], end in
    [completed_world]'s record. *)
Example chain_completes :
  let '(w, outs) :=
    @work plain_soup (textstat_const 60) (answering "X" 10) 5 analysis_world in
  outs = [Returned; Returned]
  /\ queue w = []
  /\ analysis_records w !! 1%N = Some completed_analysis.
Proof. vm_compute. repeat split. Qed.

Lemma seo_score_formula_witness :
  exists a,
    SEOAnalyzer.init (Some "no matching words here") (Some "missing")
                     (Some "content") = inr a
    /\ map (fun kv => severity kv.2)
           (@SEOAnalyzer.generate_issues plain_soup (textstat_const 40) a)
       = [medium; medium]
    /\ @SEOAnalyzer.calculate_mock_seo_score plain_soup (textstat_const 40) a
       = 86%Z.
Proof.
  exists {| SEOAnalyzer.content := "no matching words here";
            SEOAnalyzer.target_keyword := "missing";
            SEOAnalyzer.input_type := "content" |}.
  split; [reflexivity|]. split; [reflexivity|].
  pose proof (@seo_score_formula plain_soup (textstat_const 40)
                {| SEOAnalyzer.content := "no matching words here";
                   SEOAnalyzer.target_keyword := "missing";
                   SEOAnalyzer.input_type := "content" |}) as Hscore.
  cbv zeta in Hscore. destruct Hscore as (_ & _ & Htwo & _).
  exact (Htwo eq_refl).
Defined.

Lemma multi_word_keyword_density_zero_witness :
  (2 <= length (Py.split "test keyword"))%nat
  /\ (exists a,
        SEOAnalyzer.init (Some "test keyword and test keyword")
                         (Some "test keyword") (Some "content") = inr a
        /\ (@SEOAnalyzer.calculate_keyword_density plain_soup a == 0)%Q)
  /\ (exists (r' : OptimizationRecord) d,
        optimization_records
          (@optimize_content_task plain_soup
             (answering "test keyword and test keyword" 10) 0 7
             optimization_world).1 !! 7%N = Some r'
        /\ optimized_keyword_denisty r' = Some d /\ (d == 0)%Q).
Proof.
  assert (2 <= length (Py.split "test keyword"))%nat as Hlen
    by (vm_compute; lia).
  destruct (@multi_word_keyword_density_zero plain_soup "test keyword" Hlen)
    as [Hdensity Hstage].
  split; [exact Hlen|]. split.
  - exists {| SEOAnalyzer.content := "test keyword and test keyword";
              SEOAnalyzer.target_keyword := "test keyword";
              SEOAnalyzer.input_type := "content" |}.
    split; [reflexivity|].
    exact (Hdensity "test keyword and test keyword" "content" _ eq_refl).
  - destruct (Hstage (answering "test keyword and test keyword" 10) 0%nat 7%N
                     optimization_world _ _ eq_refl eq_refl eq_refl)
      as (r' & d & Hr' & _ & Hd & Hzero).
    exists r', d. auto.
Defined.

Lemma stage_a_success_witness :
  analysis_records analysis_world !! 1%N
  = Some (new_analysis None (Some "test keyword test") "test")
  /\ exists r' : AnalysisRecord,
       @analyze_content_task plain_soup (textstat_const 60)
         (answering "X" 10) 0 1 analysis_world
       = ({| analysis_records := {[ 1%N := r' ]};
             optimization_records := ∅;
             queue := [first_message AnalyzeContent 1;
                       first_message OptimizeAfterAnalysis 1] |},
          Returned)
       /\ status r' = processing
       /\ completed_at r' = None
       /\ input_content r' = Some "test keyword test"
       /\ word_count r' = Some 3%Z
       /\ keyword_density r' = Some (6667 # 100)
       /\ readability_score r' = Some (6000 # 100)
       /\ avg_sentence_length r' = Some (300 # 100)
       /\ seo_score r' = Some (inject_Z 93)
       /\ issues r'
          = Some [("keyword_density_high",
                   issue_definition "keyword_density_high")].
Proof.
  split; [reflexivity|].
  destruct (proj1 (@stage_a_success plain_soup (textstat_const 60)
                     (answering "X" 10) 0%nat 1%N analysis_world
                     (new_analysis None (Some "test keyword test") "test")
                     eq_refl)
              (Some "test keyword test") "content"
              {| SEOAnalyzer.content := "test keyword test";
                 SEOAnalyzer.target_keyword := "test";
                 SEOAnalyzer.input_type := "content" |}
              (or_intror (conj (or_introl eq_refl) (conj eq_refl eq_refl)))
              eq_refl)
    as (r' & Hrun & _ & Hst & Hdone & Hcontent & Hwc & Hkd & Hrs & Hasl
        & Hscore & Hissues & _).
  exists r'.
  split; [exact Hrun|].
  split; [exact Hst|]. split; [exact Hdone|]. split; [exact Hcontent|].
  split; [rewrite Hwc; vm_compute; reflexivity|].
  split; [rewrite Hkd; vm_compute; reflexivity|].
  split; [rewrite Hrs; vm_compute; reflexivity|].
  split; [rewrite Hasl; vm_compute; reflexivity|].
  split; [rewrite Hscore; vm_compute; reflexivity|].
  rewrite Hissues. vm_compute. reflexivity.
Defined.

Lemma missing_record_is_noop_witness :
  @analyze_content_task plain_soup (textstat_const 60) (answering "X" 10) 0 2
    analysis_world = (analysis_world, Returned)
  /\ optimize_after_analysis_task (answering "X" 10) 0 2 analysis_world
     = (analysis_world, Returned)
  /\ @optimize_content_task plain_soup (answering "X" 10) 0 2 analysis_world
     = (analysis_world, Returned).
Proof.
  destruct (@missing_record_is_noop plain_soup (textstat_const 60)
              (answering "X" 10) 0%nat 2%N analysis_world) as [Ha Ho].
  destruct (Ha eq_refl) as [Ha1 Ha2].
  split; [exact Ha1|]. split; [exact Ha2|]. exact (Ho eq_refl).
Defined.

Lemma empty_rewrite_never_completes_witness :
  @optimize_content_task plain_soup (answering "   " 10) 0 7
    optimization_world
  = (enqueue {| msg_task := OptimizeContent; msg_record_id := 7;
                msg_retries := 1; msg_countdown := 1 |} optimization_world,
     Raises (Retry 1))
  /\ @optimize_content_task plain_soup (answering "   " 10) 3 7
       optimization_world
     = (optimization_world,
        Raises (Exc (ValueError "SEOAnalyzer requires non-empty content.")))
  /\ optimization_records
       (@optimize_content_task plain_soup (answering "   " 10) 3 7
          optimization_world).1 !! 7%N
     = Some (new_optimization "Original content" "test keyword"
                              "professional" 500).
Proof.
  destruct (@empty_rewrite_never_completes plain_soup (answering "   " 10)
              0%nat 7%N optimization_world _ _ "   " eq_refl eq_refl eq_refl
              eq_refl)
    as (_ & _ & _ & _ & _ & Hretry & _).
  destruct (@empty_rewrite_never_completes plain_soup (answering "   " 10)
              3%nat 7%N optimization_world _ _ "   " eq_refl eq_refl eq_refl
              eq_refl)
    as (_ & _ & _ & _ & Hrec & _ & Hlast).
  split; [apply Hretry; unfold max_retries; lia|].
  split; [apply Hlast; unfold max_retries; lia|exact Hrec].
Defined.

Lemma validation_failure_is_retried_witness :
  @analyze_content_body plain_soup (textstat_const 60) (answering "X" 10)
    (new_analysis (Some "https://example.com") None "test")
  = inl (ValueError "SEOAnalyzer requires non-empty content.")
  /\ (@analyze_content_task plain_soup (textstat_const 60) (answering "X" 10)
        0 1 url_world).2 = Raises (Retry 1).
Proof.
  split; [reflexivity|].
  destruct (@validation_failure_is_retried plain_soup (textstat_const 60)
              (answering "X" 10) 0%nat 1%N url_world _ _ eq_refl eq_refl)
    as [Hrun _]; [unfold max_retries; lia|].
  rewrite Hrun. reflexivity.
Defined.

Lemma stage_b_rerun_overwrites_witness :
  exists r' : AnalysisRecord,
    optimize_after_analysis_task (answering "Y" 20) 0 1 completed_world
    = (save_analysis 1 r' completed_world, Returned)
    /\ status r' = completed
    /\ optimized_content r' = Some "Y"
    /\ completed_at r' = Some 20%Z.
Proof.
  pose proof (stage_b_rerun_overwrites (answering "Y" 20) 0%nat 1%N
                completed_world completed_analysis eq_refl eq_refl) as Hrun.
  simpl in Hrun. destruct Hrun as (r' & Hrun & Hst & Hc & _ & Ht & _).
  exists r'. auto.
Defined.

(** C2, as stated, fails: the second run of stage B on the completed record,
    at a later time and with the backend answering "Y", replaces the
    content "X". *)
Lemma stage_b_not_idempotent : ~ stage_b_idempotent.
Proof.
  intros Hidem.
  destruct (Hidem (answering "Y" 20) 0%nat 1%N completed_world
              completed_analysis
              (with_analysis_base
                 (set_terminal completed 20
                    (set_optimized
                       {| res_optimized_content := Some "Y";
                          res_improvements_done := ["A"; "B"] |}
                       completed_analysis))
                 completed_analysis)
              _ _ eq_refl eq_refl ltac:(simpl; lia) eq_refl eq_refl)
    as [Hcontent _].
  discriminate Hcontent.
Qed.

(** C3, as stated, fails: the page behind the URL is empty, the scoring
    engine rejects it, and the first invocation asks for a retry and leaves
    the record in [processing]. *)
Lemma validation_failure_not_permanent :
  ~ @validation_failure_permanent plain_soup (textstat_const 60).
Proof.
  intros Hperm.
  destruct (Hperm (answering "X" 10) 0%nat 1%N url_world
              (new_analysis (Some "https://example.com") None "test")
              (ValueError "SEOAnalyzer requires non-empty content.")
              _ _ eq_refl eq_refl
              (ex_intro _ (Some "")
                 (ex_intro _ (Some "test")
                    (ex_intro _ (Some "html") eq_refl)))
              eq_refl)
    as (Hqueue & _).
  discriminate Hqueue.
Qed.

(** C4 on the fixture. The backend is down for the four invocations of the
    direct-optimize task (retries 0 to 3).  The first three are sent again
    with delays 1, 2 and 4; the fourth re-raises the backend's error.  The
    record is still [processing] and has no completion time. *)
Lemma exhausted_retries_leave_record_processing :
  let '(w, outs) :=
    @work plain_soup (textstat_const 60) (failing 10) 10 optimization_world in
  outs = [Raises (Retry 1); Raises (Retry 2); Raises (Retry 4);
          Raises (Exc (RuntimeError "OpenAI API error: unavailable"))]
  /\ queue w = []
  /\ status <$> record_at w (OptimizationTable, 7%N) = Some processing
  /\ completed_at <$> record_at w (OptimizationTable, 7%N) = Some None.
Proof. vm_compute. repeat split. Qed.

(** C9 on the fixture. The backend answers every invocation of the
    direct-optimize task with blank content.  The first three invocations
    are sent again with delays 1, 2 and 4; the fourth re-raises the
    scorer's [ValueError].  The record is still [processing], has no
    completion time and holds no optimized content. *)
Example empty_rewrite_four_invocations :
  let '(w, outs) :=
    @work plain_soup (textstat_const 60) (answering "   " 10) 10
      optimization_world in
  outs = [Raises (Retry 1); Raises (Retry 2); Raises (Retry 4);
          Raises (Exc (ValueError "SEOAnalyzer requires non-empty content."))]
  /\ queue w = []
  /\ status <$> record_at w (OptimizationTable, 7%N) = Some processing
  /\ completed_at <$> record_at w (OptimizationTable, 7%N) = Some None
  /\ optimized_content <$> record_at w (OptimizationTable, 7%N) = Some None.
Proof. vm_compute. repeat split. Qed.

(** ** Status along traces *)

Local Open Scope list_scope.

Lemma record_at_with_queue q w tgt :
  record_at (with_queue q w) tgt = record_at w tgt.
Proof. reflexivity. Qed.






Section Traces.
Context `{Soup} `{Textstat}.



End Traces.



Section Monotonic.
Context `{Soup} `{Textstat}.




End Monotonic.

Import Fixtures.




(** * Further properties *)

(** ** Normalisation of text *)

Lemma lower_char_idem c : Py.lower_char (Py.lower_char c) = Py.lower_char c.
Proof. destruct c as [[] [] [] [] [] [] [] []]; reflexivity. Qed.

Lemma lower_idem s : Py.lower (Py.lower s) = Py.lower s.
Proof.
  induction s as [|c s IH]; simpl; [reflexivity|].
  rewrite lower_char_idem, IH. reflexivity.
Qed.

Lemma lstrip_lower s : Py.lstrip (Py.lower s) = Py.lower (Py.lstrip s).
Proof.
  induction s as [|c s IH]; simpl; [reflexivity|].
  rewrite is_space_lower_char. destruct (Py.is_space c); [exact IH|reflexivity].
Qed.

Lemma rstrip_lower s : Py.rstrip (Py.lower s) = Py.lower (Py.rstrip s).
Proof.
  induction s as [|c s IH]; simpl; [reflexivity|].
  rewrite is_space_lower_char, IH, truthy_lower.
  destruct (Py.is_space c && negb (Py.truthy (Py.rstrip s))); reflexivity.
Qed.

Lemma strip_lower s : Py.strip (Py.lower s) = Py.lower (Py.strip s).
Proof. unfold Py.strip. rewrite lstrip_lower, rstrip_lower. reflexivity. Qed.

Lemma rstrip_idem s : Py.rstrip (Py.rstrip s) = Py.rstrip s.
Proof.
  induction s as [|c s IH]; simpl; [reflexivity|].
  destruct (Py.is_space c && negb (Py.truthy (Py.rstrip s))) eqn:Hc;
    [reflexivity|].
  simpl. rewrite IH, Hc. reflexivity.
Qed.

Lemma lstrip_starts_clean s : starts_clean (Py.lstrip s) = true.
Proof.
  induction s as [|c s IH]; simpl; [reflexivity|].
  destruct (Py.is_space c) eqn:Hc; [exact IH|]. simpl. rewrite Hc. reflexivity.
Qed.

Lemma lstrip_clean s : starts_clean s = true -> Py.lstrip s = s.
Proof.
  destruct s as [|c s]; simpl; [reflexivity|].
  destruct (Py.is_space c); [discriminate|reflexivity].
Qed.

Lemma rstrip_starts_clean s :
  starts_clean s = true -> starts_clean (Py.rstrip s) = true.
Proof.
  destruct s as [|c s]; simpl; [reflexivity|]. intros Hc.
  destruct (Py.is_space c) eqn:Hsp; [discriminate|]. simpl.
  rewrite Hsp. reflexivity.
Qed.

Lemma strip_idem s : Py.strip (Py.strip s) = Py.strip s.
Proof.
  unfold Py.strip.
  rewrite (lstrip_clean (Py.rstrip (Py.lstrip s)))
    by apply rstrip_starts_clean, lstrip_starts_clean.
  apply rstrip_idem.
Qed.

Lemma lstrip_empty s : Py.lstrip s = EmptyString <-> all_space s = true.
Proof.
  induction s as [|c s IH]; simpl; [tauto|].
  destruct (Py.is_space c); simpl; [exact IH|].
  split; discriminate.
Qed.

Lemma rstrip_empty s : Py.rstrip s = EmptyString <-> all_space s = true.
Proof.
  induction s as [|c s IH]; simpl; [tauto|].
  destruct (Py.is_space c); simpl.
  - destruct (Py.rstrip s) eqn:Hr; simpl.
    + split; [intros _; apply IH; reflexivity|reflexivity].
    + split; [discriminate|]. intros Hs. apply IH in Hs. discriminate.
  - split; discriminate.
Qed.

Lemma all_space_lstrip s : all_space (Py.lstrip s) = all_space s.
Proof.
  induction s as [|c s IH]; simpl; [reflexivity|].
  destruct (Py.is_space c) eqn:Hc; simpl; [exact IH|].
  rewrite Hc. reflexivity.
Qed.

Lemma strip_empty s : Py.strip s = EmptyString <-> all_space s = true.
Proof.
  unfold Py.strip. rewrite rstrip_empty, all_space_lstrip. tauto.
Qed.

Lemma split_from_nil s : forall cur,
  Py.split_from cur s = [] <-> cur = EmptyString /\ all_space s = true.
Proof.
  induction s as [|c s IH]; intros cur; simpl.
  - destruct cur; simpl; split; try tauto; try discriminate.
    intros [Hc _]; discriminate.
  - destruct (Py.is_space c); simpl.
    + destruct cur; simpl.
      * rewrite IH. tauto.
      * split; [discriminate|]. intros [Hc _]; discriminate.
    + rewrite IH. split; [|intros [_ Hf]; discriminate].
      intros [Hc _]. destruct cur; discriminate.
Qed.

Lemma split_nil s : Py.split s = [] <-> Py.strip s = EmptyString.
Proof.
  unfold Py.split. rewrite split_from_nil, strip_empty. tauto.
Qed.

Lemma all_space_lower s : all_space (Py.lower s) = all_space s.
Proof.
  induction s as [|c s IH]; simpl; [reflexivity|].
  rewrite is_space_lower_char, IH. reflexivity.
Qed.

Lemma truthy_empty s : Py.truthy s = false <-> s = EmptyString.
Proof. destruct s; simpl; split; congruence. Qed.

(** The argument check of the engine only looks at the trimmed text. *)
Lemma blank_spec s :
  SEOAnalyzer.blank (Some s) = negb (Py.truthy (Py.strip s)).
Proof.
  unfold SEOAnalyzer.blank. destruct s as [|c s]; [reflexivity|].
  reflexivity.
Qed.

Lemma truthy_strip_lower s :
  Py.truthy (Py.strip (Py.lower s)) = Py.truthy (Py.strip s).
Proof. rewrite strip_lower. apply truthy_lower. Qed.

(** ** The scoring engine: arguments and metrics *)

Lemma init_accepted_arguments content kw ty a :
  SEOAnalyzer.init content kw ty = inr a ->
  exists c k t,
    content = Some c /\ kw = Some k /\ ty = Some t
    /\ Py.strip c <> "" /\ Py.strip k <> ""
    /\ SEOAnalyzer.content a = c
    /\ SEOAnalyzer.target_keyword a = Py.strip (Py.lower k)
    /\ SEOAnalyzer.target_keyword a <> ""
    /\ SEOAnalyzer.input_type a = Py.strip (Py.lower t)
    /\ (SEOAnalyzer.input_type a = "html"
        \/ SEOAnalyzer.input_type a = "content").
Proof.
  unfold SEOAnalyzer.init. intros Hinit.
  destruct content as [c|]; [|discriminate].
  rewrite blank_spec in Hinit.
  destruct (Py.truthy (Py.strip c)) eqn:Hc; [simpl in Hinit|discriminate].
  destruct kw as [k|]; [|discriminate].
  rewrite blank_spec in Hinit.
  destruct (Py.truthy (Py.strip k)) eqn:Hk; [simpl in Hinit|discriminate].
  destruct ty as [t|]; [|discriminate].
  destruct (negb (Py.truthy t)
            || negb (bool_decide
                       (Py.strip (Py.lower t) ∈ SEOAnalyzer.VALID_INPUT_TYPES)))
    eqn:Ht; [discriminate|].
  injection Hinit as <-. simpl.
  apply orb_false_iff in Ht as [_ Ht]. apply negb_false_iff in Ht.
  apply bool_decide_eq_true in Ht.
  exists c, k, t. repeat split.
  - intros Hz. rewrite Hz in Hc. discriminate.
  - intros Hz. rewrite Hz in Hk. discriminate.
  - intros Hz. rewrite <- truthy_strip_lower, Hz in Hk. discriminate.
  - unfold SEOAnalyzer.VALID_INPUT_TYPES in Ht.
    apply elem_of_cons in Ht as [Ht|Ht]; [left; exact Ht|].
    apply list_elem_of_singleton in Ht. right; exact Ht.
Qed.

(** X1. When the engine's constructor accepts its arguments, all three were
    given, content and keyword are not blank, the content is kept verbatim,
    the keyword is stored lower-cased and trimmed and is not empty, and the
    input kind is stored normalised as "html" or "content". *)
Theorem init_accepts content kw ty a :
  SEOAnalyzer.init content kw ty = inr a ->
  exists c k t,
    content = Some c /\ kw = Some k /\ ty = Some t
    /\ Py.strip c <> "" /\ Py.strip k <> ""
    /\ SEOAnalyzer.content a = c
    /\ SEOAnalyzer.target_keyword a = Py.strip (Py.lower k)
    /\ SEOAnalyzer.target_keyword a <> ""
    /\ SEOAnalyzer.input_type a = Py.strip (Py.lower t)
    /\ (SEOAnalyzer.input_type a = "html"
        \/ SEOAnalyzer.input_type a = "content").
Proof. apply init_accepted_arguments. Qed.

(** X2. Letter case and surrounding whitespace of the keyword and of the
    input kind do not matter: the constructor gives the same result, value
    or error, for the lower-cased and for the trimmed argument. *)
Theorem init_ignores_case_and_padding content kw ty (t : string) :
  SEOAnalyzer.init content (Some (Py.lower kw)) ty
  = SEOAnalyzer.init content (Some kw) ty
  /\ SEOAnalyzer.init content (Some (Py.strip kw)) ty
     = SEOAnalyzer.init content (Some kw) ty
  /\ SEOAnalyzer.init content (Some kw) (Some (Py.lower t))
     = SEOAnalyzer.init content (Some kw) (Some t).
Proof.
  unfold SEOAnalyzer.init. repeat split.
  - rewrite !blank_spec, truthy_strip_lower. simpl. rewrite lower_idem.
    reflexivity.
  - rewrite !blank_spec, strip_idem. simpl.
    rewrite strip_lower, strip_idem, <- strip_lower. reflexivity.
  - rewrite truthy_lower. simpl. rewrite lower_idem. reflexivity.
Qed.

Section ScoringExtras.
Context `{Soup} `{Textstat}.

(** X3. An analyzer for pasted content always sees at least one word: the
    constructor's non-blank check makes the word count positive, so the
    density's no-token case cannot occur for this input kind. *)
Theorem content_has_words content kw ty a :
  SEOAnalyzer.init content kw ty = inr a ->
  SEOAnalyzer.input_type a = "content" ->
  (1 <= SEOAnalyzer.count_words a)%nat
  /\ Py.split (Py.lower (SEOAnalyzer._get_text_only a)) <> [].
Proof.
  intros Hinit Hty.
  destruct (init_accepted_arguments _ _ _ _ Hinit)
    as (c & k & t & _ & _ & _ & Hc & _ & Hca & _).
  unfold SEOAnalyzer.count_words, SEOAnalyzer._get_text_only.
  rewrite Hty. simpl. rewrite Hca.
  assert (Py.split c <> []) as Hne by (rewrite split_nil; exact Hc).
  split.
  - destruct (Py.split c); [congruence|simpl; lia].
  - rewrite split_lower. destruct (Py.split c); [congruence|discriminate].
Qed.

Lemma round2_fl_ge_1 x : (1 <= x)%Q -> (1 <= Py.round2 (Py.fl x))%Q.
Proof.
  intros Hx.
  assert (0 <= x)%Q as Hx0 by lra.
  destruct (fl_error x Hx0) as [Hlo _]. unfold unit_roundoff in Hlo.
  assert (100 <= Py.round_half_even (Py.fl x * 100))%Z as Hr.
  { apply round_half_even_above.
    change (inject_Z 100) with 100%Q. set (t := Py.fl x) in *. lra. }
  unfold Py.round2, Qle; simpl. lia.
Qed.

Lemma words_per_sentence (pieces : list string) :
  Forall (fun s => (1 <= length (Py.split s))%nat)
         (List.filter Py.truthy (map Py.strip pieces)).
Proof.
  induction pieces as [|x pieces IH]; simpl; [constructor|].
  destruct (Py.truthy (Py.strip x)) eqn:Hx; [|exact IH].
  constructor; [|exact IH].
  rewrite split_strip.
  destruct (Py.split x) eqn:Hsplit; [|simpl; lia].
  apply split_nil in Hsplit. rewrite Hsplit in Hx. discriminate.
Qed.

Lemma sum_at_least_length (f : string -> nat) (l : list string) :
  Forall (fun s => (1 <= f s)%nat) l ->
  (length l <= list_sum (map f l))%nat.
Proof. induction 1; simpl; lia. Qed.

(** X4. The average sentence length is [0] when the text has no sentence
    (every piece between sentence marks is blank), and at least [1]
    otherwise. *)
Theorem average_sentence_length_bounds (a : SEOAnalyzer.t) :
  let sentences :=
    List.filter Py.truthy
      (map Py.strip (Py.re_split_sentences (SEOAnalyzer._get_text_only a))) in
  (sentences = [] -> SEOAnalyzer.average_sentence_length a = 0%Q)
  /\ (sentences <> [] -> (1 <= SEOAnalyzer.average_sentence_length a)%Q).
Proof.
  intros sentences. unfold SEOAnalyzer.average_sentence_length.
  fold sentences.
  pose proof (words_per_sentence
                (Py.re_split_sentences (SEOAnalyzer._get_text_only a)))
    as Hwords.
  fold sentences in Hwords.
  apply (sum_at_least_length (fun s => length (Py.split s))) in Hwords.
  destruct sentences as [|s0 rest] eqn:Hs.
  - split; [reflexivity|congruence].
  - split; [discriminate|]. intros _.
    apply round2_fl_ge_1.
    set (total := list_sum _) in *. set (n := length (s0 :: rest)) in *.
    assert (0 < Z.of_nat n)%Z as Hpos by (subst n; simpl; lia).
    apply Qle_shift_div_l; [rewrite <- (Zlt_Qlt 0); exact Hpos|].
    rewrite Qmult_1_l, <- Zle_Qle. lia.
Qed.

End ScoringExtras.

(** With 43 words in 40 sentences the quotient 1.075 is not a binary float;
    the nearest one is below it, and the average is 1.07. *)
Example average_of_43_in_40 :
  @SEOAnalyzer.average_sentence_length Fixtures.plain_soup
    {| SEOAnalyzer.content := MoreFixtures.short_sentences;
       SEOAnalyzer.target_keyword := "go";
       SEOAnalyzer.input_type := "content" |}
  = 107 # 100.
Proof. vm_compute. reflexivity. Qed.

(** ** Issue detection and score *)

Lemma dict_get_is_Some_keys {V} k (d : dict V) :
  is_Some (dict_get k d) -> k ∈ d.*1.
Proof.
  induction d as [|[k' v] d IH]; simpl; intros Hk.
  - destruct Hk as [? Hk]; discriminate.
  - destruct (String.eqb k k') eqn:Hkk.
    + apply String.eqb_eq in Hkk as ->. apply elem_of_cons. left; reflexivity.
    + apply elem_of_cons. right. apply IH, Hk.
Qed.

Lemma Qltb_spec x y : Qltb x y = true <-> (x < y)%Q.
Proof.
  unfold Qltb. destruct (Qcompare_spec x y) as [He|Hl|Hg].
  - split; [discriminate|]. intros Hlt. rewrite He in Hlt.
    exfalso. exact (Qlt_irrefl _ Hlt).
  - tauto.
  - split; [discriminate|]. intros Hlt.
    exfalso. exact (Qlt_irrefl _ (Qlt_trans _ _ _ Hlt Hg)).
Qed.

Lemma Qltb_true x y : (x < y)%Q -> Qltb x y = true.
Proof. apply Qltb_spec. Qed.

Lemma Qltb_false x y : (y <= x)%Q -> Qltb x y = false.
Proof.
  intros Hle. destruct (Qltb x y) eqn:Hb; [|reflexivity].
  apply Qltb_spec in Hb. exfalso. exact (Qle_not_lt _ _ Hle Hb).
Qed.

Lemma issue_keys_rules b1 b2 html b4 b5 b6 b7 :
  let keys := issue_keys b1 b2 html b4 b5 b6 b7 in
  ("keyword_density_low" ∈ keys <-> b1 = true)
  /\ ("keyword_density_high" ∈ keys <-> b1 = false /\ b2 = true)
  /\ ("readability_poor" ∈ keys <-> b7 = true)
  /\ ("no_h1_tag" ∈ keys <-> html = true /\ b4 = true)
  /\ ("missing_meta_description" ∈ keys <-> html = true /\ b5 = true)
  /\ ("missing_subheadings" ∈ keys <-> html = true /\ b6 = true)
  /\ NoDup keys.
Proof.
  intros keys. subst keys.
  repeat match goal with
         | |- (_ ∈ _ <-> _) /\ _ => split
         end;
    [match goal with
     | |- (?x ∈ ?l <-> _) => rewrite <- (bool_decide_eq_true (x ∈ l))
     end ..
    |match goal with
     | |- NoDup ?l => apply (bool_decide_unpack (NoDup l))
     end];
    destruct b1, b2, html, b4, b5, b6, b7; vm_compute;
    intuition (try discriminate; try congruence).
Qed.

Lemma issue_keys_plain b1 b2 b4 b5 b6 b7 k :
  k ∈ issue_keys b1 b2 false b4 b5 b6 b7 ->
  k ∈ ["keyword_density_low"; "keyword_density_high"; "readability_poor"].
Proof.
  intros Hk.
  destruct b1, b2, b7; simpl in Hk;
    repeat (apply elem_of_cons in Hk as [->|Hk]);
    try (apply elem_of_nil in Hk; contradiction);
    match goal with
    | |- ?x ∈ ?l => apply (bool_decide_unpack (x ∈ l)); vm_compute; exact I
    end.
Qed.

Lemma issue_keys_score b1 b2 html b4 b5 b6 b7 :
  let keys := issue_keys b1 b2 html b4 b5 b6 b7 in
  let score :=
    SEOAnalyzer.score_of_issues (map (fun k => (k, issue_definition k)) keys) in
  (61 <= score)%Z /\ (score <= 100)%Z
  /\ (score = 100%Z <-> keys = [])
  /\ (html = false -> (86 <= score)%Z).
Proof.
  destruct b1, b2, html, b4, b5, b6, b7; vm_compute;
    intuition (try discriminate; try congruence).
Qed.

Section IssueExtras.
Context `{Soup} `{Textstat}.

Lemma generate_issues_keys (a : SEOAnalyzer.t) :
  let headings := SEOAnalyzer.extract_headings a in
  SEOAnalyzer.generate_issues a
  = map (fun k => (k, issue_definition k))
        (issue_keys
           (Qltb (SEOAnalyzer.calculate_keyword_density a) (1 # 2))
           (Qltb 5 (SEOAnalyzer.calculate_keyword_density a))
           (String.eqb (SEOAnalyzer.input_type a) "html")
           (SEOAnalyzer.no_heading "h1" headings)
           (negb (default false (SEOAnalyzer.check_meta_description a)))
           (SEOAnalyzer.no_heading "h2" headings
            && SEOAnalyzer.no_heading "h3" headings)
           (Qltb (SEOAnalyzer.calculate_readability a) 50)).
Proof.
  intros headings. unfold SEOAnalyzer.generate_issues. cbv zeta.
  fold headings.
  destruct (Qlt_le_dec (SEOAnalyzer.calculate_keyword_density a) (1 # 2))
    as [Hlow|Hlow].
  2: destruct (Qlt_le_dec 5 (SEOAnalyzer.calculate_keyword_density a))
       as [Hhigh|Hhigh].
  all: destruct (Qlt_le_dec (SEOAnalyzer.calculate_readability a) 50)
         as [Hpoor|Hpoor].
  all: repeat match goal with
         | Hq : (?x < ?y)%Q |- context [Qltb ?x ?y] =>
             rewrite (Qltb_true x y Hq)
         | Hq : (?y <= ?x)%Q |- context [Qltb ?x ?y] =>
             rewrite (Qltb_false x y Hq)
         end.
  all: destruct (String.eqb (SEOAnalyzer.input_type a) "html");
       [destruct (SEOAnalyzer.no_heading "h1" headings);
        destruct (negb (default false (SEOAnalyzer.check_meta_description a)));
        destruct (SEOAnalyzer.no_heading "h2" headings
                  && SEOAnalyzer.no_heading "h3" headings)|];
       reflexivity.
Qed.

Lemma generate_issues_key_list (a : SEOAnalyzer.t) :
  let headings := SEOAnalyzer.extract_headings a in
  (SEOAnalyzer.generate_issues a).*1
  = issue_keys
      (Qltb (SEOAnalyzer.calculate_keyword_density a) (1 # 2))
      (Qltb 5 (SEOAnalyzer.calculate_keyword_density a))
      (String.eqb (SEOAnalyzer.input_type a) "html")
      (SEOAnalyzer.no_heading "h1" headings)
      (negb (default false (SEOAnalyzer.check_meta_description a)))
      (SEOAnalyzer.no_heading "h2" headings
       && SEOAnalyzer.no_heading "h3" headings)
      (Qltb (SEOAnalyzer.calculate_readability a) 50).
Proof.
  intros headings. rewrite generate_issues_keys. fold headings.
  rewrite <- list_fmap_compose. apply list_fmap_id.
Qed.

(** X5. Issue detection follows its rule table: the low-density issue is
    present exactly when the density is below [0.5], the high-density issue
    exactly when it is above [5], the readability issue exactly when the
    readability is below [50]; the structural issues are present exactly
    for HTML input without H1, without a non-empty meta description, or
    without H2 and H3.  The two density issues never occur together, no
    issue is listed twice, and for pasted content only the density and
    readability issues can occur. *)
Theorem issue_rules (a : SEOAnalyzer.t) :
  let keys := (SEOAnalyzer.generate_issues a).*1 in
  let density := SEOAnalyzer.calculate_keyword_density a in
  let headings := SEOAnalyzer.extract_headings a in
  let html := SEOAnalyzer.input_type a = "html" in
  ("keyword_density_low" ∈ keys <-> (density < 1 # 2)%Q)
  /\ ("keyword_density_high" ∈ keys <-> (5 < density)%Q)
  /\ ("readability_poor" ∈ keys
      <-> (SEOAnalyzer.calculate_readability a < 50)%Q)
  /\ ("no_h1_tag" ∈ keys
      <-> html /\ SEOAnalyzer.no_heading "h1" headings = true)
  /\ ("missing_meta_description" ∈ keys
      <-> html /\ SEOAnalyzer.check_meta_description a <> Some true)
  /\ ("missing_subheadings" ∈ keys
      <-> html /\ SEOAnalyzer.no_heading "h2" headings = true
          /\ SEOAnalyzer.no_heading "h3" headings = true)
  /\ ~ ("keyword_density_low" ∈ keys /\ "keyword_density_high" ∈ keys)
  /\ NoDup keys
  /\ (~ html ->
      forall k, k ∈ keys ->
        k ∈ ["keyword_density_low"; "keyword_density_high";
             "readability_poor"]).
Proof.
  intros keys density headings html. subst keys.
  rewrite generate_issues_key_list. fold headings density.
  set (b1 := Qltb density (1 # 2)). set (b2 := Qltb 5 density).
  set (bh := String.eqb (SEOAnalyzer.input_type a) "html").
  set (b4 := SEOAnalyzer.no_heading "h1" headings).
  set (b5 := negb (default false (SEOAnalyzer.check_meta_description a))).
  set (b6 := SEOAnalyzer.no_heading "h2" headings
             && SEOAnalyzer.no_heading "h3" headings).
  set (b7 := Qltb (SEOAnalyzer.calculate_readability a) 50).
  destruct (issue_keys_rules b1 b2 bh b4 b5 b6 b7)
    as (Hlow & Hhigh & Hpoor & Hh1 & Hmeta & Hsub & Hnodup).
  assert (bh = true <-> html) as Hhtml by apply String.eqb_eq.
  assert (b1 = true -> b2 = false) as Hexcl.
  { intros Hb1. apply Qltb_spec in Hb1. apply Qltb_false.
    apply Qlt_le_weak. eapply Qlt_trans; [exact Hb1|reflexivity]. }
  split; [split; [intros Hin; apply Qltb_spec, Hlow, Hin
                 |intros Hlt; apply Hlow, Qltb_spec, Hlt]|].
  split.
  { split.
    - intros Hin. apply Qltb_spec, Hhigh, Hin.
    - intros Hlt. apply Hhigh. apply Qltb_spec in Hlt. fold b2 in Hlt.
      split; [|exact Hlt]. destruct b1; [|reflexivity].
      rewrite Hexcl in Hlt by reflexivity. discriminate. }
  split; [split; [intros Hin; apply Qltb_spec, Hpoor, Hin
                 |intros Hlt; apply Hpoor, Qltb_spec, Hlt]|].
  split; [rewrite Hh1, Hhtml; tauto|].
  split.
  { rewrite Hmeta, Hhtml. subst b5.
    destruct (SEOAnalyzer.check_meta_description a) as [[]|]; simpl;
      intuition congruence. }
  split.
  { rewrite Hsub, Hhtml. subst b6. rewrite andb_true_iff. tauto. }
  split.
  { intros [Hl Hh]. apply Hlow in Hl. apply Hhigh in Hh as [Hh _].
    congruence. }
  split; [exact Hnodup|].
  intros Hplain k Hk.
  destruct bh eqn:Hbh; [exfalso; apply Hplain, Hhtml; reflexivity|].
  eapply issue_keys_plain, Hk.
Qed.

(** X6. The composite score never falls below 61, for pasted content never
    below 86: the clamp at [0] is never reached.  It is 100 exactly when no
    issue was detected. *)
Theorem seo_score_bounds (a : SEOAnalyzer.t) :
  (61 <= SEOAnalyzer.calculate_mock_seo_score a)%Z
  /\ (SEOAnalyzer.calculate_mock_seo_score a <= 100)%Z
  /\ (SEOAnalyzer.calculate_mock_seo_score a = 100%Z
      <-> SEOAnalyzer.generate_issues a = [])
  /\ (SEOAnalyzer.input_type a <> "html" ->
      (86 <= SEOAnalyzer.calculate_mock_seo_score a)%Z).
Proof.
  unfold SEOAnalyzer.calculate_mock_seo_score.
  rewrite generate_issues_keys.
  set (headings := SEOAnalyzer.extract_headings a).
  set (bh := String.eqb (SEOAnalyzer.input_type a) "html").
  match goal with
  | |- context [issue_keys ?b1 ?b2 bh ?b4 ?b5 ?b6 ?b7] =>
      destruct (issue_keys_score b1 b2 bh b4 b5 b6 b7)
        as (Hlo & Hhi & Hfull & Hplain);
      set (keys := issue_keys b1 b2 bh b4 b5 b6 b7) in *
  end.
  split; [exact Hlo|]. split; [exact Hhi|]. split.
  - rewrite Hfull. split; [intros ->; reflexivity|].
    intros Hnil. destruct keys; [reflexivity|discriminate].
  - intros Hne. apply Hplain. subst bh. apply String.eqb_neq, Hne.
Qed.

End IssueExtras.

(** ** The tasks: what an invocation does and does not do *)

Local Open Scope list_scope.

Section TaskExtras.
Context `{Soup} `{Textstat}.

(** X7. When the direct-optimize task returns normally on a stored record,
    the backend answered with a non-blank text, and the record saved under
    the same identifier is [completed] with the current time, holds the
    answer and its improvements, the measured duration, and the engine's
    keyword density of the answer for the record's keyword; the inputs are
    kept, no other record changes and nothing is sent. *)
Theorem direct_optimize_success env n id w (r : OptimizationRecord) w' :
  optimization_records w !! id = Some r ->
  optimize_content_task env n id w = (w', Returned) ->
  exists results text analyzer (r' : OptimizationRecord),
    _send_request env = inr results
    /\ res_optimized_content results = Some text
    /\ Py.strip text <> ""
    /\ SEOAnalyzer.init (Some text) (Some (target_keyword r))
                        (Some "content") = inr analyzer
    /\ w' = save_optimization id r' w
    /\ status r' = completed
    /\ completed_at r' = Some (now env)
    /\ processing_time r' = Some (elapsed_ms env)
    /\ optimized_content r' = Some text
    /\ optimized_imporvements r' = Some (res_improvements_done results)
    /\ optimized_keyword_denisty r'
       = Some (SEOAnalyzer.calculate_keyword_density analyzer)
    /\ input_content r' = input_content r
    /\ target_keyword r' = target_keyword r
    /\ tone r' = tone r
    /\ target_length r' = target_length r
    /\ created_at r' = created_at r.
Proof.
  intros Hr Hrun.
  destruct (optimize_content_body env r) as [[e r1]|r1] eqn:Hbody.
  { rewrite (optimize_content_task_raises _ _ _ _ _ _ _ Hr Hbody) in Hrun.
    destruct (max_retries <? S n)%nat; discriminate. }
  unfold optimize_content_task in Hrun. rewrite Hr, Hbody in Hrun.
  injection Hrun as <-.
  unfold optimize_content_body in Hbody.
  destruct (SEOOptimizerService.optimize _ _ _ _ _) as [e|results] eqn:Hcall;
    [discriminate|].
  assert (_send_request env = inr results) as Hsend.
  { unfold SEOOptimizerService.optimize in Hcall.
    destruct (_ || _); [discriminate|exact Hcall]. }
  simpl in Hbody.
  destruct (SEOAnalyzer.init _ _ _) as [e|analyzer] eqn:Hinit; [discriminate|].
  injection Hbody as <-.
  destruct (init_accepted_arguments _ _ _ _ Hinit)
    as (text & k & t & Htext & _ & _ & Hnonblank & _).
  exists results, text, analyzer. eexists.
  split; [exact Hsend|]. split; [exact Htext|]. split; [exact Hnonblank|].
  split; [rewrite <- Htext; exact Hinit|].
  split; [reflexivity|]. simpl. rewrite Htext. repeat split.
Qed.

(** X8. When stage B returns normally on a stored record, the backend
    answered, and the record saved under the same identifier is [completed]
    with the current time and holds the answer; every field written by
    stage A (content, metrics, issues, duration) is kept, and nothing is
    sent. *)
Theorem stage_b_success env n id w (r : AnalysisRecord) w' :
  analysis_records w !! id = Some r ->
  optimize_after_analysis_task env n id w = (w', Returned) ->
  exists results (r' : AnalysisRecord),
    _send_request env = inr results
    /\ SEOOptimizerService.falsy (input_content r) = false
    /\ w' = save_analysis id r' w
    /\ status r' = completed
    /\ completed_at r' = Some (now env)
    /\ optimized_content r' = res_optimized_content results
    /\ optimized_imporvements r' = Some (res_improvements_done results)
    /\ input_content r' = input_content r
    /\ input_url r' = input_url r
    /\ target_keyword r' = target_keyword r
    /\ seo_score r' = seo_score r
    /\ word_count r' = word_count r
    /\ keyword_density r' = keyword_density r
    /\ avg_sentence_length r' = avg_sentence_length r
    /\ readability_score r' = readability_score r
    /\ issues r' = issues r
    /\ processing_time r' = processing_time r.
Proof.
  intros Hr Hrun.
  destruct (SEOOptimizerService.post_analysis_optimize
              (_send_request env) (input_content r) (target_keyword r))
    as [e|results] eqn:Hcall.
  { rewrite (optimize_after_analysis_task_raises _ _ _ _ _ _ Hr Hcall) in Hrun.
    destruct (max_retries <? S n)%nat; discriminate. }
  unfold optimize_after_analysis_task in Hrun. rewrite Hr, Hcall in Hrun.
  injection Hrun as <-.
  unfold SEOOptimizerService.post_analysis_optimize in Hcall.
  destruct (SEOOptimizerService.falsy (input_content r)) eqn:Hcontent;
    [discriminate|].
  destruct (negb (Py.truthy (target_keyword r))); [discriminate|].
  simpl in Hcall. exists results. eexists.
  split; [exact Hcall|]. split; [reflexivity|]. split; [reflexivity|].
  simpl. repeat split.
Qed.

(** What an invocation can do to the two tables. *)
Lemma run_stores env m w :
  let w' := (run env m w).1 in
  (analysis_records w' = analysis_records w
   /\ optimization_records w' = optimization_records w)
  \/ (exists r r' : AnalysisRecord,
        table_of (msg_task m) = AnalysisTable
        /\ analysis_records w !! msg_record_id m = Some r
        /\ analysis_records w' = <[msg_record_id m := r']> (analysis_records w)
        /\ optimization_records w' = optimization_records w
        /\ (run env m w).2 = Returned)
  \/ (exists r r' : OptimizationRecord,
        table_of (msg_task m) = OptimizationTable
        /\ optimization_records w !! msg_record_id m = Some r
        /\ optimization_records w'
           = <[msg_record_id m := r']> (optimization_records w)
        /\ analysis_records w' = analysis_records w
        /\ (run env m w).2 = Returned).
Proof.
  destruct m as [task id n c]. unfold run; simpl.
  destruct task; simpl.
  - destruct (analysis_records w !! id) as [r|] eqn:Hr.
    + destruct (analyze_content_body env r) as [e|r'] eqn:Hbody.
      * rewrite (analyze_content_task_raises _ _ _ _ _ _ Hr Hbody).
        left. destruct (max_retries <? S n)%nat; split; reflexivity.
      * unfold analyze_content_task. rewrite Hr, Hbody. simpl.
        right; left. exists r, r'. repeat split.
    + unfold analyze_content_task. rewrite Hr. left; split; reflexivity.
  - destruct (analysis_records w !! id) as [r|] eqn:Hr.
    + destruct (SEOOptimizerService.post_analysis_optimize
                  (_send_request env) (input_content r) (target_keyword r))
        as [e|results] eqn:Hcall.
      * rewrite (optimize_after_analysis_task_raises _ _ _ _ _ _ Hr Hcall).
        left. destruct (max_retries <? S n)%nat; split; reflexivity.
      * unfold optimize_after_analysis_task. rewrite Hr, Hcall. simpl.
        right; left. exists r. eexists. repeat split.
    + unfold optimize_after_analysis_task. rewrite Hr.
      left; split; reflexivity.
  - destruct (optimization_records w !! id) as [r|] eqn:Hr.
    + destruct (optimize_content_body env r) as [[e r1]|r'] eqn:Hbody.
      * rewrite (optimize_content_task_raises _ _ _ _ _ _ _ Hr Hbody).
        left. destruct (max_retries <? S n)%nat; split; reflexivity.
      * unfold optimize_content_task. rewrite Hr, Hbody. simpl.
        right; right. exists r, r'. repeat split.
    + unfold optimize_content_task. rewrite Hr. left; split; reflexivity.
Qed.

(** X9. A task invocation touches at most the record it was called with:
    every other entry of both tables is as before, the table the task does
    not work on is unchanged as a whole, and no record is created or
    deleted. *)
Theorem run_touches_only_its_record env m w :
  let w' := (run env m w).1 in
  (forall id, id <> msg_record_id m ->
     analysis_records w' !! id = analysis_records w !! id
     /\ optimization_records w' !! id = optimization_records w !! id)
  /\ (table_of (msg_task m) = AnalysisTable ->
      optimization_records w' = optimization_records w)
  /\ (table_of (msg_task m) = OptimizationTable ->
      analysis_records w' = analysis_records w)
  /\ (forall id,
        (is_Some (analysis_records w' !! id)
         <-> is_Some (analysis_records w !! id))
        /\ (is_Some (optimization_records w' !! id)
            <-> is_Some (optimization_records w !! id))).
Proof.
  intros w'. subst w'.
  destruct (run_stores env m w)
    as [[Ha Ho]|[(r & r' & Ht & Hr & Ha & Ho & _)
                |(r & r' & Ht & Hr & Ho & Ha & _)]];
    rewrite ?Ha, ?Ho.
  - repeat split; auto.
  - split; [|split; [|split]].
    + intros id Hne. rewrite lookup_insert_ne by congruence. auto.
    + reflexivity.
    + rewrite Ht. discriminate.
    + intros id. split; [|tauto].
      destruct (decide (id = msg_record_id m)) as [->|Hne].
      * rewrite lookup_insert_eq, Hr. split; eauto.
      * rewrite lookup_insert_ne by congruence. tauto.
  - split; [|split; [|split]].
    + intros id Hne. rewrite lookup_insert_ne by congruence. auto.
    + rewrite Ht. discriminate.
    + reflexivity.
    + intros id. split; [tauto|].
      destruct (decide (id = msg_record_id m)) as [->|Hne].
      * rewrite lookup_insert_eq, Hr. split; eauto.
      * rewrite lookup_insert_ne by congruence. tauto.
Qed.

(** What the handler does with an exception [e] of a task's body. *)
Lemma handler_outcome task id n e w x :
  (if (max_retries <? S n)%nat then (w, Raises (Exc e))
   else (enqueue {| msg_task := task; msg_record_id := id;
                    msg_retries := S n;
                    msg_countdown := 2 ^ Z.of_nat n |} w,
         Raises (Retry (2 ^ Z.of_nat n)))).2 = Raises x ->
  let res :=
    (if (max_retries <? S n)%nat then (w, Raises (Exc e))
     else (enqueue {| msg_task := task; msg_record_id := id;
                      msg_retries := S n;
                      msg_countdown := 2 ^ Z.of_nat n |} w,
           Raises (Retry (2 ^ Z.of_nat n)))) in
  analysis_records res.1 = analysis_records w
  /\ optimization_records res.1 = optimization_records w
  /\ x <> MaxRetriesExceededError
  /\ ((x = Exc e /\ (max_retries <= n)%nat /\ queue res.1 = queue w)
      \/ (x = Retry (2 ^ Z.of_nat n) /\ (n < max_retries)%nat
          /\ queue res.1
             = queue w ++ [ {| msg_task := task; msg_record_id := id;
                               msg_retries := S n;
                               msg_countdown := 2 ^ Z.of_nat n |} ])).
Proof.
  destruct (max_retries <? S n)%nat eqn:Hlt; simpl; intros Hx;
    injection Hx as <-.
  - apply Nat.ltb_lt in Hlt.
    repeat split; [discriminate|]. left. repeat split. lia.
  - apply Nat.ltb_ge in Hlt.
    repeat split; [discriminate|]. right. repeat split. lia.
Qed.

(** X10. With a broker that accepts every message, an invocation raises
    only because the body of its [try] raised before the save: the record
    is stored and the fetch or the scoring engine (stage A), the rewrite
    call (stage B), or the rewrite call or the scorer of the rewritten
    content (direct optimize) raised some [e].  Such an invocation has
    written nothing: both tables are as before.  What it raises is [Retry]
    after sending itself again, or, with the retries used up, that same
    [e]; it never raises [MaxRetriesExceededError]. *)
Theorem raising_invocation_writes_nothing env m w x :
  (run env m w).2 = Raises x ->
  exists e,
    match msg_task m with
    | AnalyzeContent =>
        exists r : AnalysisRecord,
          analysis_records w !! msg_record_id m = Some r
          /\ analyze_content_body env r = inl e
    | OptimizeAfterAnalysis =>
        exists r : AnalysisRecord,
          analysis_records w !! msg_record_id m = Some r
          /\ SEOOptimizerService.post_analysis_optimize
               (_send_request env) (input_content r) (target_keyword r)
             = inl e
    | OptimizeContent =>
        exists r r1 : OptimizationRecord,
          optimization_records w !! msg_record_id m = Some r
          /\ optimize_content_body env r = inl (e, r1)
    end
    /\ analysis_records (run env m w).1 = analysis_records w
    /\ optimization_records (run env m w).1 = optimization_records w
    /\ x <> MaxRetriesExceededError
    /\ ((x = Exc e /\ (max_retries <= msg_retries m)%nat
         /\ queue (run env m w).1 = queue w)
        \/ (x = Retry (2 ^ Z.of_nat (msg_retries m))
            /\ (msg_retries m < max_retries)%nat
            /\ queue (run env m w).1
               = queue w ++ [ {| msg_task := msg_task m;
                                 msg_record_id := msg_record_id m;
                                 msg_retries := S (msg_retries m);
                                 msg_countdown :=
                                   2 ^ Z.of_nat (msg_retries m) |} ])).
Proof.
  destruct m as [task id n c]. unfold run; simpl.
  destruct task; simpl.
  - destruct (analysis_records w !! id) as [r|] eqn:Hr.
    + destruct (analyze_content_body env r) as [e|r'] eqn:Hbody.
      * rewrite (analyze_content_task_raises _ _ _ _ _ _ Hr Hbody).
        intros Hx. exists e. split; [exists r; auto|].
        exact (handler_outcome _ _ _ _ _ _ Hx).
      * unfold analyze_content_task. rewrite Hr, Hbody. discriminate.
    + unfold analyze_content_task. rewrite Hr. discriminate.
  - destruct (analysis_records w !! id) as [r|] eqn:Hr.
    + destruct (SEOOptimizerService.post_analysis_optimize
                  (_send_request env) (input_content r) (target_keyword r))
        as [e|results] eqn:Hcall.
      * rewrite (optimize_after_analysis_task_raises _ _ _ _ _ _ Hr Hcall).
        intros Hx. exists e. split; [exists r; auto|].
        exact (handler_outcome _ _ _ _ _ _ Hx).
      * unfold optimize_after_analysis_task. rewrite Hr, Hcall. discriminate.
    + unfold optimize_after_analysis_task. rewrite Hr. discriminate.
  - destruct (optimization_records w !! id) as [r|] eqn:Hr.
    + destruct (optimize_content_body env r) as [[e r1]|r'] eqn:Hbody.
      * rewrite (optimize_content_task_raises _ _ _ _ _ _ _ Hr Hbody).
        intros Hx. exists e. split; [exists r, r1; auto|].
        exact (handler_outcome _ _ _ _ _ _ Hx).
      * unfold optimize_content_task. rewrite Hr, Hbody. discriminate.
    + unfold optimize_content_task. rewrite Hr. discriminate.
Qed.

End TaskExtras.

(** ** The queue: what is sent, and that work runs out *)

Section QueueExtras.
Context `{Soup} `{Textstat}.

Lemma run_queue env m w :
  exists sent, queue (run env m w).1 = queue w ++ sent /\ may_send m sent.
Proof.
  destruct m as [task id n c]. unfold run, may_send; simpl.
  assert (forall e,
    exists sent,
      queue (if (max_retries <? S n)%nat then (w, Raises (Exc e))
             else (enqueue {| msg_task := task; msg_record_id := id;
                              msg_retries := S n;
                              msg_countdown := 2 ^ Z.of_nat n |} w,
                   Raises (Retry (2 ^ Z.of_nat n)))).1 = queue w ++ sent
      /\ (sent = []
          \/ ((n < max_retries)%nat
              /\ sent = [ {| msg_task := task; msg_record_id := id;
                             msg_retries := S n;
                             msg_countdown := 2 ^ Z.of_nat n |} ])
          \/ (task = AnalyzeContent
              /\ sent = [ {| msg_task := OptimizeAfterAnalysis;
                             msg_record_id := id;
                             msg_retries := 0; msg_countdown := 0 |} ])))
    as Hraise.
  { intros e. destruct (max_retries <? S n)%nat eqn:Hlt; simpl.
    - exists []. rewrite app_nil_r. auto.
    - apply Nat.ltb_ge in Hlt. eexists. split; [reflexivity|].
      right; left. split; [lia|reflexivity]. }
  assert (exists sent : list Message,
            queue w = queue w ++ sent
            /\ (sent = []
                \/ ((n < max_retries)%nat
                    /\ sent = [ {| msg_task := task; msg_record_id := id;
                                   msg_retries := S n;
                                   msg_countdown := 2 ^ Z.of_nat n |} ])
                \/ (task = AnalyzeContent
                    /\ sent = [ {| msg_task := OptimizeAfterAnalysis;
                                   msg_record_id := id;
                                   msg_retries := 0; msg_countdown := 0 |} ])))
    as Hnone.
  { exists []. rewrite app_nil_r. auto. }
  destruct task; simpl.
  - destruct (analysis_records w !! id) as [r|] eqn:Hr.
    + destruct (analyze_content_body env r) as [e|r'] eqn:Hbody.
      * rewrite (analyze_content_task_raises _ _ _ _ _ _ Hr Hbody).
        apply Hraise.
      * unfold analyze_content_task. rewrite Hr, Hbody. simpl.
        eexists. split; [reflexivity|]. right; right. auto.
    + unfold analyze_content_task. rewrite Hr. exact Hnone.
  - destruct (analysis_records w !! id) as [r|] eqn:Hr.
    + destruct (SEOOptimizerService.post_analysis_optimize
                  (_send_request env) (input_content r) (target_keyword r))
        as [e|results] eqn:Hcall.
      * rewrite (optimize_after_analysis_task_raises _ _ _ _ _ _ Hr Hcall).
        apply Hraise.
      * unfold optimize_after_analysis_task. rewrite Hr, Hcall. exact Hnone.
    + unfold optimize_after_analysis_task. rewrite Hr. exact Hnone.
  - destruct (optimization_records w !! id) as [r|] eqn:Hr.
    + destruct (optimize_content_body env r) as [[e r1]|r'] eqn:Hbody.
      * rewrite (optimize_content_task_raises _ _ _ _ _ _ _ Hr Hbody).
        apply Hraise.
      * unfold optimize_content_task. rewrite Hr, Hbody. exact Hnone.
    + unfold optimize_content_task. rewrite Hr. exact Hnone.
Qed.

(** X11. An invocation keeps the queued messages in their order and
    appends at most one message, for the record it was called with: either
    itself with one more retry and the delay [2 ^ retries], or, from
    stage A only, the first message of stage B.  A message that is sent
    never carries more than [max_retries] retries or a delay above 4. *)
Theorem run_sends_at_most_one env m w :
  exists sent,
    queue (run env m w).1 = queue w ++ sent
    /\ may_send m sent
    /\ (length sent <= 1)%nat
    /\ Forall (fun m' => msg_record_id m' = msg_record_id m
                         /\ table_of (msg_task m') = table_of (msg_task m)
                         /\ (msg_retries m' <= max_retries)%nat
                         /\ (0 <= msg_countdown m' <= 4)%Z) sent.
Proof.
  destruct (run_queue env m w) as (sent & Hq & Hsend).
  exists sent. split; [exact Hq|]. split; [exact Hsend|].
  destruct Hsend as [->|[[Hn ->]|[Ht ->]]]; simpl.
  - split; [lia|constructor].
  - split; [lia|]. constructor; [|constructor]. simpl.
    split; [reflexivity|]. split; [reflexivity|]. split; [lia|].
    unfold max_retries in Hn.
    destruct (msg_retries m) as [|[|[|k]]]; [simpl; lia ..|lia].
  - split; [lia|]. constructor; [|constructor]. simpl.
    split; [reflexivity|]. split; [rewrite Ht; reflexivity|].
    unfold max_retries. lia.
Qed.

Lemma budget_sent m sent :
  may_send m sent ->
  (list_sum (message_budget <$> sent) < message_budget m)%nat.
Proof.
  unfold message_budget, max_retries. intros [->|[[Hn ->]|[Ht ->]]]; simpl.
  - destruct (msg_task m); lia.
  - unfold max_retries in Hn. destruct (msg_task m); lia.
  - rewrite Ht. lia.
Qed.

Lemma queue_budget_app (l1 l2 : list Message) :
  list_sum (message_budget <$> (l1 ++ l2))
  = (list_sum (message_budget <$> l1) + list_sum (message_budget <$> l2))%nat.
Proof. rewrite fmap_app. apply list_sum_app. Qed.

(** X12. Work runs out.  Every delivery lowers the budget of the queue, so
    a run of [n] deliveries is possible only if [n] is at most the budget
    at its start: four invocations per task, eight for a record that goes
    through both stages. *)
Theorem deliveries_are_bounded :
  (forall w w', deliver_once w w' -> (queue_budget w' < queue_budget w)%nat)
  /\ (forall n w w',
        nsteps deliver_once n w w' ->
        (n + queue_budget w' <= queue_budget w)%nat).
Proof.
  assert (forall w w', deliver_once w w' ->
                       (queue_budget w' < queue_budget w)%nat) as Hstep.
  { intros w w' Hd. destruct Hd as [env m l1 l2 w Hq].
    destruct (run_queue env m (with_queue (l1 ++ l2) w)) as (sent & Hq' & Hs).
    change (queue (with_queue (l1 ++ l2) w)) with (l1 ++ l2) in Hq'.
    unfold queue_budget. rewrite Hq', Hq.
    rewrite !queue_budget_app, fmap_cons.
    change (list_sum (message_budget m :: (message_budget <$> l2)))
      with (message_budget m + list_sum (message_budget <$> l2))%nat.
    pose proof (budget_sent m sent Hs). lia. }
  split; [exact Hstep|].
  induction 1 as [|n w1 w2 w3 Hd _ IH]; [lia|].
  apply Hstep in Hd. lia.
Qed.

End QueueExtras.

(** ** Stage A and what follows it *)

Section StageAExtras.
Context `{Soup} `{Textstat}.

(** X13. Running the body of stage A again on the record it saved, with the
    same answers from outside, saves the same record: a repeated stage A
    rewrites the record with identical values. *)
Theorem stage_a_body_idempotent env (r r' : AnalysisRecord) :
  analyze_content_body env r = inr r' ->
  analyze_content_body env r' = inr r'.
Proof.
  unfold analyze_content_body. intros Hbody.
  destruct (input_url r) as [url|] eqn:Hurl.
  - destruct (Py.truthy url) eqn:Htruthy.
    + destruct (extract_html env url) as [e|page] eqn:Hfetch;
        [discriminate|].
      simpl in Hbody.
      destruct (SEOAnalyzer.init (Some page) _ _) as [e|analyzer] eqn:Hinit;
        [discriminate|].
      injection Hbody as <-. simpl.
      rewrite Htruthy, Hfetch. simpl. rewrite Hinit. reflexivity.
    + simpl in Hbody.
      destruct (SEOAnalyzer.init (input_content r) _ _) as [e|analyzer]
        eqn:Hinit; [discriminate|].
      injection Hbody as <-. simpl.
      rewrite Htruthy. simpl. rewrite Hinit. reflexivity.
  - simpl in Hbody.
    destruct (SEOAnalyzer.init (input_content r) _ _) as [e|analyzer]
      eqn:Hinit; [discriminate|].
    injection Hbody as <-. simpl. rewrite Hinit. reflexivity.
Qed.

(** X14. A record saved by stage A passes the argument check of the
    post-analysis rewrite: its content and keyword are not empty, so what
    stage B gets is decided by the backend alone. *)
Theorem stage_b_arguments_after_stage_a env (r r' : AnalysisRecord) :
  analyze_content_body env r = inr r' ->
  SEOOptimizerService.falsy (input_content r') = false
  /\ Py.truthy (target_keyword r') = true
  /\ forall answer,
       SEOOptimizerService.post_analysis_optimize
         answer (input_content r') (target_keyword r') = answer.
Proof.
  intros Hbody.
  assert (exists ty, is_Some
            (match SEOAnalyzer.init (input_content r')
                     (Some (target_keyword r')) (Some ty) with
             | inr a => Some a | inl _ => None end)) as [ty [a Ha]].
  { unfold analyze_content_body in Hbody.
    destruct (_ : string * (exn + option string)) as [ty [e|content]];
      simpl in Hbody; [discriminate|].
    destruct (SEOAnalyzer.init content _ _) as [e|a] eqn:Hinit;
      [discriminate|].
    injection Hbody as <-. simpl. exists ty. rewrite Hinit. eauto. }
  destruct (SEOAnalyzer.init _ _ _) as [e|a'] eqn:Hinit; [discriminate|].
  destruct (init_accepted_arguments _ _ _ _ Hinit)
    as (c & k & t & Hc & Hk & _ & Hcs & Hks & _).
  injection Hk as <-.
  assert (Py.truthy c = true) as Hct.
  { destruct c; [exfalso; apply Hcs; reflexivity|reflexivity]. }
  assert (Py.truthy (target_keyword r') = true) as Hkt.
  { destruct (target_keyword r'); [exfalso; apply Hks; reflexivity|reflexivity]. }
  assert (SEOOptimizerService.falsy (input_content r') = false) as Hf.
  { rewrite Hc. simpl. rewrite Hct. reflexivity. }
  split; [exact Hf|]. split; [exact Hkt|].
  intros answer. unfold SEOOptimizerService.post_analysis_optimize.
  rewrite Hf, Hkt. reflexivity.
Qed.

End StageAExtras.

(** ** The page fetcher *)

Local Open Scope string_scope.

Lemma split_from_truthy s : forall cur,
  Forall (fun w => Py.truthy w = true) (Py.split_from cur s).
Proof.
  induction s as [|c s IH]; intros cur; simpl.
  - destruct (Py.truthy cur) eqn:Hc; auto.
  - destruct (Py.is_space c).
    + destruct (Py.truthy cur) eqn:Hc; [constructor; [exact Hc|]|]; apply IH.
    + apply IH.
Qed.

Lemma append_cons x (a b : string) : String x a ++ b = String x (a ++ b).
Proof. reflexivity. Qed.

Lemma append_nil_l (b : string) : "" ++ b = b.
Proof. reflexivity. Qed.

Lemma string_app_assoc (a b c : string) : (a ++ b) ++ c = a ++ (b ++ c).
Proof.
  induction a as [|x a IH]; [reflexivity|].
  rewrite !append_cons, IH. reflexivity.
Qed.

Lemma string_app_nil_r (a : string) : a ++ "" = a.
Proof.
  induction a as [|x a IH]; [reflexivity|].
  rewrite append_cons, IH. reflexivity.
Qed.

Lemma split_from_token w : forall cur rest,
  has_space w = false ->
  Py.split_from cur (w ++ rest) = Py.split_from (cur ++ w) rest.
Proof.
  induction w as [|c w IH]; intros cur rest Hw.
  - rewrite append_nil_l, string_app_nil_r. reflexivity.
  - simpl in Hw. apply orb_false_iff in Hw as [Hc Hw].
    rewrite append_cons. simpl Py.split_from. rewrite Hc.
    rewrite (IH _ _ Hw), string_app_assoc, append_cons, append_nil_l.
    reflexivity.
Qed.

Lemma split_from_space c cur s :
  Py.is_space c = true ->
  Py.split_from cur (String c s)
  = if Py.truthy cur then cur :: Py.split_from "" s else Py.split_from "" s.
Proof. intros Hc. simpl. rewrite Hc. reflexivity. Qed.

(** Joining tokens with single spaces and splitting again gives the
    tokens back. *)
Lemma split_join (ws : list string) :
  Forall (fun w => has_space w = false) ws ->
  Forall (fun w => Py.truthy w = true) ws ->
  Py.split (str_join " " ws) = ws.
Proof.
  unfold Py.split. induction ws as [|w ws IH]; intros Hsp Htr;
    [reflexivity|].
  inversion Hsp as [|? ? Hw Hsp']; subst.
  inversion Htr as [|? ? Hwt Htr']; subst.
  destruct ws as [|w2 ws].
  - change (str_join " " [w]) with w.
    rewrite <- (string_app_nil_r w) at 1.
    rewrite (split_from_token w "" "" Hw), append_nil_l. simpl.
    rewrite Hwt. reflexivity.
  - change (str_join " " (w :: w2 :: ws))
      with (w ++ " " ++ str_join " " (w2 :: ws)).
    rewrite (split_from_token w "" _ Hw), append_nil_l.
    rewrite append_cons, append_nil_l.
    rewrite (split_from_space " " w (str_join " " (w2 :: ws)) eq_refl), Hwt.
    rewrite (IH Hsp' Htr'). reflexivity.
Qed.

Lemma normalise_whitespace (text : string) :
  let page := str_join " " (Py.split text) in
  Py.split page = Py.split text
  /\ str_join " " (Py.split page) = page
  /\ (SEOAnalyzer.blank (Some page) = true <-> page = "")
  /\ (page = "" <-> Py.strip text = "").
Proof.
  intros page.
  assert (Py.split page = Py.split text) as Hsplit.
  { apply split_join; [apply split_from_no_space; reflexivity
                      |apply split_from_truthy]. }
  split; [exact Hsplit|]. split; [subst page; rewrite Hsplit; reflexivity|].
  assert (page = "" <-> Py.strip text = "") as Hempty.
  { rewrite <- split_nil. split.
    - intros Hp. rewrite <- Hsplit, Hp. reflexivity.
    - intros Hn. subst page. rewrite Hn. reflexivity. }
  split; [|exact Hempty].
  rewrite blank_spec, negb_true_iff, truthy_empty, <- split_nil, Hsplit,
    split_nil.
  symmetry. exact Hempty.
Qed.

(** X15. Both fetch functions pass on the exception of a failed request
    and otherwise return the cleaned text with its whitespace normalised:
    the words are those of the cleaned text, in order, separated by single
    spaces (normalising again changes nothing), and the result is empty
    exactly when the cleaned text is blank.  So the scoring engine rejects
    a fetched page as blank exactly when the page is the empty string. *)
Theorem extract_html_normalises (web : ExtractHtml.Web) (url : string) :
  (forall e, ExtractHtml.http_get web url = inl e ->
             ExtractHtml.extract_html web url = inl e
             /\ ExtractHtml.extract_text_from_html web url = inl e)
  /\ (forall text, ExtractHtml.http_get web url = inr text ->
        exists page words,
          ExtractHtml.extract_html web url = inr page
          /\ ExtractHtml.extract_text_from_html web url = inr words
          /\ Py.split page = Py.split (ExtractHtml.clean_markup web text)
          /\ Py.split words = Py.split (ExtractHtml.visible_text web text)
          /\ str_join " " (Py.split page) = page
          /\ str_join " " (Py.split words) = words
          /\ (SEOAnalyzer.blank (Some page) = true <-> page = "")
          /\ (page = ""
              <-> Py.strip (ExtractHtml.clean_markup web text) = "")).
Proof.
  unfold ExtractHtml.extract_html, ExtractHtml.extract_text_from_html.
  split.
  - intros e ->. split; reflexivity.
  - intros text ->.
    destruct (normalise_whitespace (ExtractHtml.clean_markup web text))
      as (Hp1 & Hp2 & Hp3 & Hp4).
    destruct (normalise_whitespace (ExtractHtml.visible_text web text))
      as (Hw1 & Hw2 & _).
    eexists. eexists. split; [reflexivity|]. split; [reflexivity|].
    repeat split; try assumption; try apply Hp3; try apply Hp4.
Qed.

(** ** Serializers and creation endpoints *)

Local Open Scope list_scope.

(** X16. The analysis serializer accepts a request exactly when one of
    [url] and [content] is given (not [None], not empty) and the other is
    not, and then returns the data unchanged. *)
Theorem validate_exactly_one_input (data data' : Serializers.AnalysisCreateData) :
  Serializers.validate data = inr data'
  <-> data' = data
      /\ ((SEOOptimizerService.falsy (Serializers.url data) = false
           /\ SEOOptimizerService.falsy (Serializers.content data) = true)
          \/ (SEOOptimizerService.falsy (Serializers.url data) = true
              /\ SEOOptimizerService.falsy (Serializers.content data) = false)).
Proof.
  unfold Serializers.validate.
  destruct (SEOOptimizerService.falsy (Serializers.url data)),
           (SEOOptimizerService.falsy (Serializers.content data)); simpl;
    split; try discriminate; intuition congruence.
Qed.

Lemma validate_tone_result (value tone : string) :
  Serializers.validate_tone value = inr tone ->
  tone = Py.lower value
  /\ tone ∈ Serializers.accepted_tones
  /\ Serializers.validate_tone tone = inr tone
  /\ forall other, Py.lower other = Py.lower value ->
                   Serializers.validate_tone other = inr tone.
Proof.
  unfold Serializers.validate_tone. intros Hv.
  destruct (bool_decide (Py.lower value ∈ Serializers.accepted_tones)) eqn:Hin;
    [|discriminate].
  simpl in Hv. injection Hv as <-.
  split; [reflexivity|]. split; [apply bool_decide_eq_true in Hin; exact Hin|].
  split.
  - rewrite lower_idem, Hin. reflexivity.
  - intros other ->. rewrite Hin. reflexivity.
Qed.

(** X17. The tone validator compares case-insensitively and returns the
    lower-cased tone: an accepted tone is one of the eight listed tones,
    is accepted again unchanged, and any spelling of it in other letter
    case is accepted with the same result. *)
Theorem validate_tone_normalises (value tone : string) :
  Serializers.validate_tone value = inr tone ->
  tone = Py.lower value
  /\ tone ∈ Serializers.accepted_tones
  /\ Serializers.validate_tone tone = inr tone
  /\ forall other, Py.lower other = Py.lower value ->
                   Serializers.validate_tone other = inr tone.
Proof. apply validate_tone_result. Qed.

Lemma validate_content_result (value content : string) :
  Serializers.validate_content value = inr content ->
  content = Py.strip value
  /\ Py.strip content = content
  /\ (10 <= String.length content)%nat
  /\ (5 <= length (Py.split content))%nat
  /\ Serializers.validate_content content = inr content
  /\ SEOAnalyzer.blank (Some content) = false
  /\ SEOOptimizerService.falsy (Some content) = false.
Proof.
  unfold Serializers.validate_content. intros Hv.
  destruct (String.length (Py.strip value) <? 10)%nat eqn:Hlen; [discriminate|].
  destruct (length (Py.split value) <? 5)%nat eqn:Hwords; [discriminate|].
  injection Hv as <-.
  apply Nat.ltb_ge in Hlen. apply Nat.ltb_ge in Hwords.
  split; [reflexivity|]. split; [apply strip_idem|].
  split; [exact Hlen|]. split; [rewrite split_strip; exact Hwords|].
  split.
  - rewrite strip_idem, split_strip.
    apply Nat.ltb_ge in Hlen. apply Nat.ltb_ge in Hwords.
    rewrite Hlen, Hwords. reflexivity.
  - assert (Py.truthy (Py.strip value) = true) as Ht.
    { destruct (Py.strip value); [simpl in Hlen; lia|reflexivity]. }
    split.
    + rewrite blank_spec, strip_idem, Ht. reflexivity.
    + simpl. rewrite Ht. reflexivity.
Qed.

(** X18. Content accepted by the content validator is returned trimmed: it
    has no surrounding whitespace, at least 10 characters and at least 5
    words, is accepted again unchanged, and passes the non-blank check of
    the scoring engine. *)
Theorem validate_content_accepts (value content : string) :
  Serializers.validate_content value = inr content ->
  content = Py.strip value
  /\ Py.strip content = content
  /\ (10 <= String.length content)%nat
  /\ (5 <= length (Py.split content))%nat
  /\ Serializers.validate_content content = inr content
  /\ SEOAnalyzer.blank (Some content) = false
  /\ SEOOptimizerService.falsy (Some content) = false.
Proof. apply validate_content_result. Qed.

(** X19. A record created by the optimization endpoint from data that
    passed the content and tone validators, with a target length within
    the declared bounds and a non-empty keyword, is stored as [processing]
    without completion time, has its first task queued, and passes the
    argument check of the rewrite service: the service's answer is the
    backend's. *)
Theorem optimization_post_creates
    (data : Serializers.OptimizationCreateData) raw_content raw_tone
    new_id now w :
  Serializers.validate_content raw_content = inr (Serializers.o_content data) ->
  Serializers.validate_tone raw_tone = inr (Serializers.o_tone data) ->
  (50 <= Serializers.o_target_length data <= 5000)%Z ->
  Py.truthy (Serializers.o_target_keyword data) = true ->
  exists r : OptimizationRecord,
    Views.optimization_post (inr data) new_id now w
    = (delay OptimizeContent new_id (save_optimization new_id r w),
       Views.HTTP_201_CREATED new_id processing now)
    /\ status r = processing
    /\ completed_at r = None
    /\ optimized_content r = None
    /\ input_content r = Some (Serializers.o_content data)
    /\ forall answer,
         SEOOptimizerService.optimize answer (input_content r)
           (target_keyword r) (tone r) (target_length r) = answer.
Proof.
  intros Hcontent Htone Hlen Hkw.
  destruct (validate_content_result _ _ Hcontent)
    as (_ & _ & _ & _ & _ & _ & Hfalsy).
  destruct (validate_tone_result _ _ Htone) as (_ & Hin & _).
  eexists. split; [reflexivity|]. simpl.
  repeat split.
  intros answer. unfold SEOOptimizerService.optimize.
  rewrite Hfalsy, Hkw. simpl.
  assert (Py.truthy (Serializers.o_tone data) = true) as ->.
  { unfold Serializers.accepted_tones in Hin.
    repeat (apply elem_of_cons in Hin as [->|Hin]; [reflexivity|]).
    apply elem_of_nil in Hin. contradiction. }
  simpl.
  assert ((Serializers.o_target_length data =? 0)%Z = false) as ->
    by (apply Z.eqb_neq; lia).
  reflexivity.
Qed.



Section SystemExtras.
Context `{Soup} `{Textstat}.



End SystemExtras.

(** ** The further properties on the fixtures *)

Import MoreFixtures.

Lemma init_accepts_witness :
  SEOAnalyzer.init (Some "One. Two words.") (Some " Words ") (Some "CONTENT")
  = inr sample_analyzer
  /\ SEOAnalyzer.target_keyword sample_analyzer <> "".
Proof.
  split; [reflexivity|].
  destruct (init_accepts (Some "One. Two words.") (Some " Words ")
              (Some "CONTENT") sample_analyzer eq_refl)
    as (c & k & t & _ & _ & _ & _ & _ & _ & _ & Hne & _).
  exact Hne.
Defined.

Lemma content_has_words_witness :
  (1 <= @SEOAnalyzer.count_words plain_soup sample_analyzer)%nat.
Proof.
  exact (proj1 (@content_has_words plain_soup
                  (Some "One. Two words.") (Some " Words ") (Some "CONTENT")
                  sample_analyzer eq_refl eq_refl)).
Defined.

Lemma average_sentence_length_bounds_witness :
  (1 <= @SEOAnalyzer.average_sentence_length plain_soup sample_analyzer)%Q.
Proof.
  apply (proj2 (@average_sentence_length_bounds plain_soup sample_analyzer)).
  discriminate.
Defined.

Lemma issue_rules_witness :
  "readability_poor"
    ∈ (@SEOAnalyzer.generate_issues plain_soup (textstat_const 40)
         sample_analyzer).*1
  /\ "readability_poor"
       ∈ ["keyword_density_low"; "keyword_density_high"; "readability_poor"].
Proof.
  pose proof (@issue_rules plain_soup (textstat_const 40) sample_analyzer)
    as Hrules.
  cbv zeta in Hrules.
  destruct Hrules as (_ & _ & Hpoor & _ & _ & _ & _ & _ & Hplain).
  assert ("readability_poor"
            ∈ (@SEOAnalyzer.generate_issues plain_soup (textstat_const 40)
                 sample_analyzer).*1) as Hin.
  { apply Hpoor. reflexivity. }
  split; [exact Hin|]. apply Hplain; [discriminate|exact Hin].
Defined.

Lemma seo_score_bounds_witness :
  (86 <= @SEOAnalyzer.calculate_mock_seo_score plain_soup (textstat_const 40)
           sample_analyzer)%Z.
Proof.
  destruct (@seo_score_bounds plain_soup (textstat_const 40) sample_analyzer)
    as (_ & _ & _ & Hplain).
  apply Hplain. discriminate.
Defined.

Lemma direct_optimize_success_witness :
  exists r' : OptimizationRecord,
    (@optimize_content_task plain_soup (answering "X" 10) 0 7
       optimization_world).1
    = save_optimization 7 r' optimization_world
    /\ status r' = completed
    /\ optimized_content r' = Some "X".
Proof.
  destruct (@direct_optimize_success plain_soup (answering "X" 10) 0%nat 7%N
              optimization_world
              (new_optimization "Original content" "test keyword"
                                "professional" 500)
              (@optimize_content_task plain_soup (answering "X" 10) 0 7
                 optimization_world).1
              eq_refl ltac:(vm_compute; reflexivity))
    as (results & text & analyzer & r' & Hsend & Htext & _ & _ & Hw & Hst
        & _ & _ & Hcontent & _).
  exists r'. split; [exact Hw|]. split; [exact Hst|].
  rewrite Hcontent. injection Hsend as <-. simpl in Htext.
  rewrite <- Htext. reflexivity.
Defined.

Lemma stage_b_success_witness :
  exists r' : AnalysisRecord,
    (optimize_after_analysis_task (answering "Y" 20) 0 1 completed_world).1
    = save_analysis 1 r' completed_world
    /\ keyword_density r' = Some (6667 # 100)
    /\ completed_at r' = Some 20%Z.
Proof.
  destruct (stage_b_success (answering "Y" 20) 0%nat 1%N completed_world
              completed_analysis
              (optimize_after_analysis_task (answering "Y" 20) 0 1
                 completed_world).1
              eq_refl ltac:(vm_compute; reflexivity))
    as (results & r' & _ & _ & Hw & _ & Hdone & _ & _ & _ & _ & _ & _ & _
        & Hdensity & _).
  exists r'. split; [exact Hw|]. split; [rewrite Hdensity; reflexivity|].
  exact Hdone.
Defined.

Lemma raising_invocation_writes_nothing_witness :
  (@run plain_soup (textstat_const 60) (answering "X" 10)
     (first_message AnalyzeContent 1) url_world).2 = Raises (Retry 1)
  /\ exists e,
       @analyze_content_body plain_soup (textstat_const 60) (answering "X" 10)
         (new_analysis (Some "https://example.com") None "test") = inl e
       /\ analysis_records
            (@run plain_soup (textstat_const 60) (answering "X" 10)
               (first_message AnalyzeContent 1) url_world).1
          = analysis_records url_world.
Proof.
  split; [vm_compute; reflexivity|].
  destruct (@raising_invocation_writes_nothing plain_soup
              (textstat_const 60) (answering "X" 10)
              (first_message AnalyzeContent 1) url_world (Retry 1)
              ltac:(vm_compute; reflexivity))
    as (e & (r & Hr & Hbody) & Hrecords & _).
  exists e. split; [|exact Hrecords].
  assert (r = new_analysis (Some "https://example.com") None "test") as <-
    by (vm_compute in Hr; injection Hr as <-; reflexivity).
  exact Hbody.
Defined.

Lemma deliveries_are_bounded_witness :
  (queue_budget
     (@run plain_soup (textstat_const 60) (answering "X" 10)
        (first_message AnalyzeContent 1)
        (with_queue ([] ++ [])%list analysis_world)).1
   < queue_budget analysis_world)%nat.
Proof.
  apply (proj1 (@deliveries_are_bounded plain_soup (textstat_const 60))).
  apply (deliver_once_run (answering "X" 10) (first_message AnalyzeContent 1)
           [] [] analysis_world).
  reflexivity.
Defined.

Lemma stage_a_body_idempotent_witness :
  exists r' : AnalysisRecord,
    @analyze_content_body plain_soup (textstat_const 60) (answering "X" 10)
      (new_analysis None (Some "test keyword test") "test") = inr r'
    /\ @analyze_content_body plain_soup (textstat_const 60) (answering "X" 10)
         r' = inr r'.
Proof.
  eexists. split; [vm_compute; reflexivity|].
  apply (@stage_a_body_idempotent plain_soup (textstat_const 60)
           (answering "X" 10)
           (new_analysis None (Some "test keyword test") "test")).
  vm_compute. reflexivity.
Defined.

Lemma stage_b_arguments_after_stage_a_witness :
  exists r' : AnalysisRecord,
    @analyze_content_body plain_soup (textstat_const 60) (answering "X" 10)
      (new_analysis None (Some "test keyword test") "test") = inr r'
    /\ SEOOptimizerService.post_analysis_optimize
         (inl (RuntimeError "down")) (input_content r') (target_keyword r')
       = inl (RuntimeError "down").
Proof.
  eexists. split; [vm_compute; reflexivity|].
  apply (@stage_b_arguments_after_stage_a plain_soup (textstat_const 60)
           (answering "X" 10)
           (new_analysis None (Some "test keyword test") "test")).
  vm_compute. reflexivity.
Defined.

Lemma extract_html_normalises_witness :
  ExtractHtml.extract_html one_page "https://example.com"
  = inr "Hello wide world"
  /\ exists page,
       ExtractHtml.extract_html one_page "https://example.com" = inr page
       /\ str_join " " (Py.split page) = page.
Proof.
  split; [reflexivity|].
  destruct (proj2 (extract_html_normalises one_page "https://example.com")
              _ eq_refl)
    as (page & words & Hpage & _ & _ & _ & Hidem & _).
  exists page. split; [exact Hpage|exact Hidem].
Defined.

Lemma validate_exactly_one_input_witness :
  Serializers.validate analysis_request = inr analysis_request.
Proof.
  apply (validate_exactly_one_input analysis_request analysis_request).
  split; [reflexivity|]. right. split; reflexivity.
Defined.

Lemma validate_tone_normalises_witness :
  Serializers.validate_tone "Formal" = inr "formal"
  /\ Serializers.validate_tone "FORMAL" = inr "formal".
Proof.
  split; [reflexivity|].
  apply (validate_tone_normalises "Formal" "formal" eq_refl). reflexivity.
Defined.

Lemma validate_content_accepts_witness :
  Serializers.validate_content "  Five words are enough here  "
  = inr "Five words are enough here"
  /\ Serializers.validate_content "Five words are enough here"
     = inr "Five words are enough here".
Proof.
  split; [reflexivity|].
  apply (validate_content_accepts "  Five words are enough here  "
           "Five words are enough here" eq_refl).
Defined.

Lemma optimization_post_creates_witness :
  exists r : OptimizationRecord,
    (Views.optimization_post (inr optimization_request) 9 100
       optimization_world).1
    = delay OptimizeContent 9 (save_optimization 9 r optimization_world)
    /\ status r = processing.
Proof.
  destruct (optimization_post_creates optimization_request
              "  Five words are enough here  " "Formal" 9%N 100%Z
              optimization_world eq_refl eq_refl ltac:(simpl; lia) eq_refl)
    as (r & Hpost & Hst & _).
  exists r. rewrite Hpost. split; [reflexivity|exact Hst].
Defined.

